(** * The key ring stores of packages/stores/src/core/keyring.ts

    A shallow embedding of [KeyRingSelectablesStore] and [KeyRingStore].
    Both classes are MobX stores whose methods are generator flows: a flow
    runs synchronously up to a [yield], is suspended while the yielded
    promise is pending, and is resumed with the promise's value, or gets the
    rejection thrown at the [yield].  No flow of the file catches anything,
    so a rejection ends the flow and leaves every earlier assignment in
    place.

    The stores talk to three collaborators they receive in their
    constructors (a message requester, an interaction store, a chain getter).
    These are interfaces here, and everything is stated for all of their
    implementations.

    A flow that is awaited is run to its end, with nothing else running
    while it is suspended.  A flow that is called and not awaited
    ([this.restore()] and [this.refresh()] in the constructors,
    [selectables.refresh()] in [forEach]) runs up to its boundary call and
    is then kept among the flows in flight, until its reply arrives. *)

From Stdlib Require Import String List ZArith Bool Ascii Lia.
From Stdlib Require Import Strings.Byte.
Import ListNotations.
Open Scope string_scope.
Open Scope list_scope.

(** ** Types of the background's message contracts *)

(** Modelled from the spec: the enum [KeyRingStatus] of @keplr/background
    is not part of the source file; the spec lists its four values. *)
Inductive KeyRingStatus : Type := NOTLOADED | EMPTY | LOCKED | UNLOCKED.

(** Modelled from the spec: [BIP44] of @keplr/types; the code reads only
    [coinType]. *)
Record BIP44 : Type := { coinType : Z }.

(** Modelled from the spec: the derivation path given with a new key. *)
Record BIP44HDPath : Type := { account : Z; change : Z; addressIndex : Z }.

(** A [Record<string, string>]. *)
Definition Meta : Type := list (string * string).

(** Modelled from the spec: one descriptor of the key store inventory,
    [{ index, kind, meta, selected }]. *)
Record KeyStoreInfo : Type :=
  { index : Z; kind : string; meta : Meta; selected : bool }.

Definition MultiKeyStoreInfoWithSelected : Type := list KeyStoreInfo.

(** An element of [_selectables]. *)
Record Selectable : Type := { path : BIP44; bech32Address : string }.

(** What [chainGetter.getChain] returns, as far as the code reads it;
    [alternativeBIP44s] is an optional field. *)
Record ChainInfo : Type :=
  { bip44 : BIP44; alternativeBIP44s : option (list BIP44) }.

Record StatusResult : Type := { result_status : KeyRingStatus }.

Record RestoreResult : Type :=
  { restore_status : KeyRingStatus;
    restore_type : string;
    restore_multiKeyStoreInfo : MultiKeyStoreInfoWithSelected }.

Record DeleteResult : Type :=
  { delete_status : KeyRingStatus;
    delete_multiKeyStoreInfo : MultiKeyStoreInfoWithSelected }.

(** The messages the file constructs, indexed by the type of the value
    their promise resolves to. *)
Inductive Msg : Type -> Type :=
| CreateMnemonicKeyMsg (mnemonic password : string) (meta : Meta)
    (bip44HDPath : BIP44HDPath) : Msg StatusResult
| CreatePrivateKeyMsg (privateKey password : string) (meta : Meta)
    : Msg StatusResult
| CreateLedgerKeyMsg (password : string) (meta : Meta)
    (bip44HDPath : BIP44HDPath) : Msg StatusResult
| AddMnemonicKeyMsg (mnemonic : string) (meta : Meta)
    (bip44HDPath : BIP44HDPath) : Msg MultiKeyStoreInfoWithSelected
| AddPrivateKeyMsg (privateKey : string) (meta : Meta)
    : Msg MultiKeyStoreInfoWithSelected
| AddLedgerKeyMsg (meta : Meta) (bip44HDPath : BIP44HDPath)
    : Msg MultiKeyStoreInfoWithSelected
| ChangeKeyRingMsg (index : Z) : Msg MultiKeyStoreInfoWithSelected
| LockKeyRingMsg : Msg StatusResult
| UnlockKeyRingMsg (password : string) : Msg StatusResult
| RestoreKeyRingMsg : Msg RestoreResult
| ShowKeyRingMsg (index : Z) (password : string) : Msg string
| DeleteKeyRingMsg (index : Z) (password : string) : Msg DeleteResult
| GetKeyRingTypeMsg : Msg string
| GetMultiKeyStoreInfoMsg : Msg MultiKeyStoreInfoWithSelected
| GetIsKeyStoreCoinTypeSetMsg (chainId : string) (paths : list BIP44)
    : Msg (list Selectable)
| SetKeyStoreCoinTypeMsg (chainId : string) (coinType : Z)
    : Msg KeyRingStatus.

(** A rejection carries an error description. *)
Definition Error : Type := string.

(** How a promise settles: [inl e] for a rejection, [inr a] for a value. *)
Definition Settled (A : Type) : Type := (Error + A)%type.

(** The third argument of [interactionStore.approve]; [{}] is [[]]. *)
Definition Payload : Type := list (string * string).

(** An entry of [interactionStore.getDatas]; the code reads its [id]. *)
Record InteractionWaitingData : Type := { id : string }.

(** ** The local state *)

Record KeyRingSelectablesStore : Type :=
  { isInitializing : bool;
    _isKeyStoreCoinTypeSet : bool;
    _selectables : list Selectable }.

(** [selectablesMap] is a JS [Map]: [forEach] visits the entries in the
    order of their insertion, so it is an association list. *)
Record KeyRingStore : Type :=
  { status : KeyRingStatus;
    keyRingType : string;
    multiKeyStoreInfo : MultiKeyStoreInfoWithSelected;
    selectablesMap : list (string * KeyRingSelectablesStore) }.

(** What the foreground does that others can see. *)
Inductive Event : Type :=
| Sent {A : Type} (port : string) (msg : Msg A)
| Approved (type id : string) (result : Payload)
| Dispatched (name : string).

(** A flow that was called without being awaited and is suspended at its
    boundary call; the channel is FIFO, so the authority has handled the
    message when it was sent and the reply is on its way. *)
Inductive Suspended : Type :=
| AwaitRestore (reply : Settled RestoreResult)
| AwaitSelectables (chainId : string) (reply : Settled (list Selectable)).

(** The store, the state of everything behind the boundary, the flows in
    flight and the events so far (oldest first). *)
Record World (Env : Type) : Type :=
  { store : KeyRingStore;
    env : Env;
    suspended : list Suspended;
    events : list Event }.

Arguments store {Env} _.
Arguments env {Env} _.
Arguments suspended {Env} _.
Arguments events {Env} _.

(** ** The collaborators *)

(** [requester.sendMessage(port, msg)]: the promise's settlement and the
    authority's next state. *)
Class MessageRequester (Env : Type) : Type :=
  sendMessage : forall A : Type, string -> Msg A -> Env -> Settled A * Env.

Class InteractionStore (Env : Type) : Type :=
  { getDatas : string -> Env -> list InteractionWaitingData;
    approve : string -> string -> Payload -> Env -> Settled unit * Env }.

Class ChainGetter : Type :=
  getChain : string -> ChainInfo.

(** Constants the file imports: [BACKGROUND_PORT] of @keplr/router and the
    value of [EnableKeyRingMsg.type()]. *)
Class Imports : Type :=
  { BACKGROUND_PORT : string;
    EnableKeyRingMsg_type : string }.

(** [Buffer.from(bytes).toString("hex")]: two lower-case digits a byte. *)
Definition hex_digit (n : N) : ascii :=
  nth (N.to_nat n) (list_ascii_of_string "0123456789abcdef") "0"%char.

Definition hex_of_byte (b : byte) : string :=
  let n := Byte.to_N b in
  String (hex_digit (n / 16)) (String (hex_digit (n mod 16)) EmptyString).

Definition toString_hex (bytes : list byte) : string :=
  String.concat "" (map hex_of_byte bytes).

(** ** Flows

    A flow run from a world to its end: the promise it returns settles with
    a rejection or a value, and the world is what the flow has made of it by
    then.  A rejection keeps the world as it was at the rejected [yield]. *)
Definition flow (W A : Type) : Type := W -> Settled A * W.

Definition ret {W A : Type} (a : A) : flow W A := fun w => (inr a, w).

Definition bind {W A B : Type} (m : flow W A) (k : A -> flow W B) : flow W B :=
  fun w =>
    match m w with
    | (inr a, w') => k a w'
    | (inl e, w') => (inl e, w')
    end.

Declare Scope flow_scope.
Delimit Scope flow_scope with flow.
Notation "x <- c ;; k" := (bind c (fun x => k))
  (at level 61, c at next level, right associativity) : flow_scope.
Notation "c ;; k" := (bind c (fun _ => k))
  (at level 61, right associativity) : flow_scope.
Open Scope flow_scope.

(** ** Assignments to the observable fields *)

Definition set_isInitializing (b : bool) (self : KeyRingSelectablesStore)
  : KeyRingSelectablesStore :=
  {| isInitializing := b;
     _isKeyStoreCoinTypeSet := _isKeyStoreCoinTypeSet self;
     _selectables := _selectables self |}.

Definition set_isKeyStoreCoinTypeSet (b : bool) (self : KeyRingSelectablesStore)
  : KeyRingSelectablesStore :=
  {| isInitializing := isInitializing self;
     _isKeyStoreCoinTypeSet := b;
     _selectables := _selectables self |}.

Definition set_selectables (l : list Selectable)
  (self : KeyRingSelectablesStore) : KeyRingSelectablesStore :=
  {| isInitializing := isInitializing self;
     _isKeyStoreCoinTypeSet := _isKeyStoreCoinTypeSet self;
     _selectables := l |}.

Definition set_status (s : KeyRingStatus) (this : KeyRingStore)
  : KeyRingStore :=
  {| status := s;
     keyRingType := keyRingType this;
     multiKeyStoreInfo := multiKeyStoreInfo this;
     selectablesMap := selectablesMap this |}.

Definition set_keyRingType (t : string) (this : KeyRingStore) : KeyRingStore :=
  {| status := status this;
     keyRingType := t;
     multiKeyStoreInfo := multiKeyStoreInfo this;
     selectablesMap := selectablesMap this |}.

Definition set_multiKeyStoreInfo (i : MultiKeyStoreInfoWithSelected)
  (this : KeyRingStore) : KeyRingStore :=
  {| status := status this;
     keyRingType := keyRingType this;
     multiKeyStoreInfo := i;
     selectablesMap := selectablesMap this |}.

Definition set_selectablesMap (m : list (string * KeyRingSelectablesStore))
  (this : KeyRingStore) : KeyRingStore :=
  {| status := status this;
     keyRingType := keyRingType this;
     multiKeyStoreInfo := multiKeyStoreInfo this;
     selectablesMap := m |}.

(** ** The JS [Map] of resolvers *)

Fixpoint Map_get {V : Type} (m : list (string * V)) (key : string) : option V :=
  match m with
  | [] => None
  | (k, v) :: rest => if String.eqb k key then Some v else Map_get rest key
  end.

Definition Map_has {V : Type} (m : list (string * V)) (key : string) : bool :=
  match Map_get m key with Some _ => true | None => false end.

(** [set] keeps the place of a key that is there and appends a new one. *)
Fixpoint Map_set {V : Type} (m : list (string * V)) (key : string) (v : V)
  : list (string * V) :=
  match m with
  | [] => [(key, v)]
  | (k, v0) :: rest =>
      if String.eqb k key then (k, v) :: rest else (k, v0) :: Map_set rest key v
  end.

(** A write to the resolver object stored under [key]. *)
Definition Map_alter {V : Type} (f : V -> V) (key : string)
  (m : list (string * V)) : list (string * V) :=
  map (fun entry => if String.eqb (fst entry) key
                    then (fst entry, f (snd entry)) else entry) m.

(** The default field values of a [KeyRingSelectablesStore]. *)
Definition KeyRingSelectablesStore_fields : KeyRingSelectablesStore :=
  {| isInitializing := false;
     _isKeyStoreCoinTypeSet := false;
     _selectables := [] |}.

(** The default field values of a [KeyRingStore]. *)
Definition KeyRingStore_fields : KeyRingStore :=
  {| status := NOTLOADED;
     keyRingType := "none";
     multiKeyStoreInfo := [];
     selectablesMap := [] |}.

(** ** The two stores *)

Section Stores.

Context {Env : Type}.
Context {requester : MessageRequester Env}.
Context {interactionStore : InteractionStore Env}.
Context {chainGetter : ChainGetter}.
Context {imports : Imports}.

(** *** What a flow can do *)

(** [this.f = v] in a [KeyRingStore] flow. *)
Definition assign (f : KeyRingStore -> KeyRingStore) : flow (World Env) unit :=
  fun w =>
    (inr tt,
     {| store := f (store w); env := env w;
        suspended := suspended w; events := events w |}).

(** [this.f = v] in the flow of the resolver of [chainId]. *)
Definition assign_self (chainId : string)
  (f : KeyRingSelectablesStore -> KeyRingSelectablesStore)
  : flow (World Env) unit :=
  assign (fun this =>
    set_selectablesMap (Map_alter f chainId (selectablesMap this)) this).

Definition record (e : Event) (w : World Env) : World Env :=
  {| store := store w; env := env w;
     suspended := suspended w; events := events w ++ [e] |}.

(** [yield* toGenerator(this.requester.sendMessage(BACKGROUND_PORT, msg))];
    nothing else runs while the flow is suspended. *)
Definition await_sendMessage {A : Type} (msg : Msg A) : flow (World Env) A :=
  fun w =>
    let (reply, env') := sendMessage A BACKGROUND_PORT msg (env w) in
    (reply,
     {| store := store w; env := env';
        suspended := suspended w;
        events := events w ++ [Sent BACKGROUND_PORT msg] |}).

(** [yield this.interactionStore.approve(type, id, result)]. *)
Definition await_approve (type id : string) (result : Payload)
  : flow (World Env) unit :=
  fun w =>
    let (reply, env') := approve type id result (env w) in
    (reply,
     {| store := store w; env := env';
        suspended := suspended w;
        events := events w ++ [Approved type id result] |}).

(** [window.dispatchEvent(new Event(name))]. *)
Definition dispatchEvent (name : string) : flow (World Env) unit :=
  fun w => (inr tt, record (Dispatched name) w).

(** A flow called and not awaited reaches its boundary call: the message
    leaves, and the rest of the flow waits for the reply. *)
Definition post {A : Type} (msg : Msg A) (rest : Settled A -> Suspended)
  (w : World Env) : World Env :=
  let (reply, env') := sendMessage A BACKGROUND_PORT msg (env w) in
  {| store := store w; env := env';
     suspended := suspended w ++ [rest reply];
     events := events w ++ [Sent BACKGROUND_PORT msg] |}.

(** *** KeyRingSelectablesStore *)

(** The message built at lines 92-97. *)
Definition candidatesMsg (chainId : string) : Msg (list Selectable) :=
  let chainInfo := getChain chainId in
  GetIsKeyStoreCoinTypeSetMsg chainId
    (bip44 chainInfo ::
     match alternativeBIP44s chainInfo with
     | Some alternatives => alternatives
     | None => []
     end).

(** [refresh] up to its first [yield] (lines 81-99): the new fields of the
    resolver, and the message it is suspended on, if any. *)
Definition refresh_begin (chainId : string) (keyRingType : string)
  (self : KeyRingSelectablesStore)
  : KeyRingSelectablesStore * option (Msg (list Selectable)) :=
  if negb (String.eqb keyRingType "mnemonic") then
    ({| isInitializing := false;
        _isKeyStoreCoinTypeSet := true;
        _selectables := [] |}, None)
  else
    (set_isInitializing true self, Some (candidatesMsg chainId)).

(** [refresh_begin] on the resolver registered under [chainId]; a chain
    without a resolver has no refresh to run. *)
Definition refresh_enter (chainId : string) (w : World Env)
  : World Env * option (Msg (list Selectable)) :=
  match Map_get (selectablesMap (store w)) chainId with
  | None => (w, None)
  | Some self =>
      let begin := refresh_begin chainId (keyRingType (store w)) in
      ({| store := set_selectablesMap
                     (Map_alter (fun this => fst (begin this)) chainId
                        (selectablesMap (store w))) (store w);
          env := env w; suspended := suspended w; events := events w |},
       snd (begin self))
  end.

(** [selectables.refresh()] as a statement: the flow is started and its
    promise dropped. *)
Definition call_refresh (chainId : string) (w : World Env) : World Env :=
  match refresh_enter chainId w with
  | (w', None) => w'
  | (w', Some msg) => post msg (AwaitSelectables chainId) w'
  end.

(** [this.selectablesMap.forEach((selectables) => selectables.refresh())]. *)
Definition forEach_refresh : flow (World Env) unit :=
  fun w =>
    (inr tt,
     fold_left (fun w' chainId => call_refresh chainId w')
       (map fst (selectablesMap (store w))) w).

(** [KeyRingStore.setKeyStoreCoinType] (lines 333-351). *)
Definition setKeyStoreCoinType (chainId : string) (coinType : Z)
  : flow (World Env) unit :=
  status <- await_sendMessage (SetKeyStoreCoinTypeMsg chainId coinType) ;;
  info <- await_sendMessage GetMultiKeyStoreInfoMsg ;;
  assign (set_multiKeyStoreInfo info) ;;
  assign (set_status status) ;;
  dispatchEvent "keplr_keystorechange" ;;
  forEach_refresh.

(** [refresh] after the reply to its message (lines 102-115). *)
Definition refresh_resume (chainId : string) (seletables : list Selectable)
  : flow (World Env) unit :=
  match seletables with
  | [] => assign_self chainId (set_isKeyStoreCoinTypeSet true)
  | [only] =>
      setKeyStoreCoinType chainId (coinType (path only)) ;;
      assign_self chainId (set_isKeyStoreCoinTypeSet true)
  | _ =>
      assign_self chainId (set_selectables seletables) ;;
      assign_self chainId (set_isKeyStoreCoinTypeSet false)
  end ;;
  assign_self chainId (set_isInitializing false).

(** [refresh] run to the end of its flow. *)
Definition refresh (chainId : string) : flow (World Env) unit :=
  fun w =>
    match refresh_enter chainId w with
    | (w', None) => (inr tt, w')
    | (w', Some msg) =>
        (seletables <- await_sendMessage msg ;;
         refresh_resume chainId seletables) w'
    end.

(** The computed [needSelectCoinType]. *)
Definition needSelectCoinType (chainId : string)
  (self : KeyRingSelectablesStore) : bool :=
  match alternativeBIP44s (getChain chainId) with
  | None | Some [] => false
  | Some _ => negb (isInitializing self) && negb (_isKeyStoreCoinTypeSet self)
  end.

(** The constructor: default fields, then [this.refresh()]. *)
Definition new_KeyRingSelectablesStore (chainId : string) (w : World Env)
  : KeyRingSelectablesStore * World Env :=
  match refresh_begin chainId (keyRingType (store w))
          KeyRingSelectablesStore_fields with
  | (self, None) => (self, w)
  | (self, Some msg) => (self, post msg (AwaitSelectables chainId) w)
  end.

(** *** KeyRingStore *)

(** Lines 146-162. *)
Definition createMnemonicKey (mnemonic password : string) (meta : Meta)
  (bip44HDPath : BIP44HDPath) : flow (World Env) unit :=
  result <- await_sendMessage
              (CreateMnemonicKeyMsg mnemonic password meta bip44HDPath) ;;
  assign (set_status (result_status result)) ;;
  type <- await_sendMessage GetKeyRingTypeMsg ;;
  assign (set_keyRingType type).

(** Lines 164-183. *)
Definition createPrivateKey (privateKey : list byte) (password : string)
  (meta : Meta) : flow (World Env) unit :=
  result <- await_sendMessage
              (CreatePrivateKeyMsg (toString_hex privateKey) password meta) ;;
  assign (set_status (result_status result)) ;;
  type <- await_sendMessage GetKeyRingTypeMsg ;;
  assign (set_keyRingType type).

(** Lines 185-200. *)
Definition createLedgerKey (password : string) (meta : Meta)
  (bip44HDPath : BIP44HDPath) : flow (World Env) unit :=
  result <- await_sendMessage (CreateLedgerKeyMsg password meta bip44HDPath) ;;
  assign (set_status (result_status result)) ;;
  type <- await_sendMessage GetKeyRingTypeMsg ;;
  assign (set_keyRingType type).

(** Lines 202-212. *)
Definition addMnemonicKey (mnemonic : string) (meta : Meta)
  (bip44HDPath : BIP44HDPath) : flow (World Env) unit :=
  info <- await_sendMessage (AddMnemonicKeyMsg mnemonic meta bip44HDPath) ;;
  assign (set_multiKeyStoreInfo info).

(** Lines 214-223. *)
Definition addPrivateKey (privateKey : list byte) (meta : Meta)
  : flow (World Env) unit :=
  info <- await_sendMessage (AddPrivateKeyMsg (toString_hex privateKey) meta) ;;
  assign (set_multiKeyStoreInfo info).

(** Lines 225-231. *)
Definition addLedgerKey (meta : Meta) (bip44HDPath : BIP44HDPath)
  : flow (World Env) unit :=
  info <- await_sendMessage (AddLedgerKeyMsg meta bip44HDPath) ;;
  assign (set_multiKeyStoreInfo info).

(** Lines 233-247. *)
Definition changeKeyRing (index : Z) : flow (World Env) unit :=
  info <- await_sendMessage (ChangeKeyRingMsg index) ;;
  assign (set_multiKeyStoreInfo info) ;;
  type <- await_sendMessage GetKeyRingTypeMsg ;;
  assign (set_keyRingType type) ;;
  dispatchEvent "keplr_keystorechange" ;;
  forEach_refresh.

(** Lines 249-256. *)
Definition lock : flow (World Env) unit :=
  result <- await_sendMessage LockKeyRingMsg ;;
  assign (set_status (result_status result)).

(** The [for ... of] loop of [unlock] (lines 267-275) over the array that
    [getDatas] returned. *)
Fixpoint approve_each (datas : list InteractionWaitingData)
  : flow (World Env) unit :=
  match datas with
  | [] => ret tt
  | interaction :: rest =>
      await_approve EnableKeyRingMsg_type (id interaction) [] ;;
      approve_each rest
  end.

(** Lines 258-278. *)
Definition unlock (password : string) : flow (World Env) unit :=
  result <- await_sendMessage (UnlockKeyRingMsg password) ;;
  assign (set_status (result_status result)) ;;
  (fun w => approve_each (getDatas EnableKeyRingMsg_type (env w)) w) ;;
  dispatchEvent "keplr_keystoreunlock".

(** [restore] after the reply to its message (lines 286-288). *)
Definition restore_resume (result : RestoreResult) : flow (World Env) unit :=
  assign (set_status (restore_status result)) ;;
  assign (set_keyRingType (restore_type result)) ;;
  assign (set_multiKeyStoreInfo (restore_multiKeyStoreInfo result)).

(** Lines 280-289. *)
Definition restore : flow (World Env) unit :=
  result <- await_sendMessage RestoreKeyRingMsg ;;
  restore_resume result.

(** Lines 291-295. *)
Definition showKeyRing (index : Z) (password : string)
  : flow (World Env) string :=
  await_sendMessage (ShowKeyRingMsg index password).

(** Lines 297-310. *)
Definition deleteKeyRing (index : Z) (password : string)
  : flow (World Env) unit :=
  result <- await_sendMessage (DeleteKeyRingMsg index password) ;;
  assign (set_status (delete_status result)) ;;
  assign (set_multiKeyStoreInfo (delete_multiKeyStoreInfo result)) ;;
  type <- await_sendMessage GetKeyRingTypeMsg ;;
  assign (set_keyRingType type).

(** Lines 312-329: the resolver is constructed, refreshing itself, and then
    set in the map. *)
Definition getKeyStoreSelectables (chainId : string) (w : World Env)
  : option KeyRingSelectablesStore * World Env :=
  let w' :=
    if negb (Map_has (selectablesMap (store w)) chainId) then
      let (self, w1) := new_KeyRingSelectablesStore chainId w in
      {| store := set_selectablesMap
                    (Map_set (selectablesMap (store w1)) chainId self)
                    (store w1);
         env := env w1; suspended := suspended w1; events := events w1 |}
    else w in
  (Map_get (selectablesMap (store w')) chainId, w').

(** The constructor (lines 136-144): default fields, then
    [this.restore()]. *)
Definition new_KeyRingStore (env0 : Env) : World Env :=
  post RestoreKeyRingMsg AwaitRestore
    {| store := KeyRingStore_fields; env := env0;
       suspended := []; events := [] |}.

(** *** The system around the stores *)

(** The reply of the [n]-th flow in flight arrives and the flow runs to its
    end. *)
Definition settle (n : nat) : flow (World Env) unit :=
  fun w =>
    match nth_error (suspended w) n with
    | None => (inr tt, w)
    | Some s =>
        let w' :=
          {| store := store w; env := env w;
             suspended := firstn n (suspended w) ++ skipn (S n) (suspended w);
             events := events w |} in
        match s with
        | AwaitRestore (inr result) => restore_resume result w'
        | AwaitSelectables chainId (inr seletables) =>
            refresh_resume chainId seletables w'
        | AwaitRestore (inl e) | AwaitSelectables _ (inl e) => (inl e, w')
        end
    end.

(** The commands of the store a caller can issue. *)
Inductive Command : Type :=
| CreateMnemonicKey (mnemonic password : string) (meta : Meta)
    (bip44HDPath : BIP44HDPath)
| CreatePrivateKey (privateKey : list byte) (password : string) (meta : Meta)
| CreateLedgerKey (password : string) (meta : Meta) (bip44HDPath : BIP44HDPath)
| AddMnemonicKey (mnemonic : string) (meta : Meta) (bip44HDPath : BIP44HDPath)
| AddPrivateKey (privateKey : list byte) (meta : Meta)
| AddLedgerKey (meta : Meta) (bip44HDPath : BIP44HDPath)
| ChangeKeyRing (index : Z)
| Lock
| Unlock (password : string)
| ShowKeyRing (index : Z) (password : string)
| DeleteKeyRing (index : Z) (password : string)
| SetKeyStoreCoinType (chainId : string) (coinType : Z).

Definition run (c : Command) : flow (World Env) unit :=
  match c with
  | CreateMnemonicKey mnemonic password meta bip44HDPath =>
      createMnemonicKey mnemonic password meta bip44HDPath
  | CreatePrivateKey privateKey password meta =>
      createPrivateKey privateKey password meta
  | CreateLedgerKey password meta bip44HDPath =>
      createLedgerKey password meta bip44HDPath
  | AddMnemonicKey mnemonic meta bip44HDPath =>
      addMnemonicKey mnemonic meta bip44HDPath
  | AddPrivateKey privateKey meta => addPrivateKey privateKey meta
  | AddLedgerKey meta bip44HDPath => addLedgerKey meta bip44HDPath
  | ChangeKeyRing index => changeKeyRing index
  | Lock => lock
  | Unlock password => unlock password
  | ShowKeyRing index password => showKeyRing index password ;; ret tt
  | DeleteKeyRing index password => deleteKeyRing index password
  | SetKeyStoreCoinType chainId coinType => setKeyStoreCoinType chainId coinType
  end.

(** What can happen to a world: a command, a call for a resolver, a refresh
    of one, or the arrival of a reply. *)
Inductive Step : Type :=
| Do (c : Command)
| GetKeyStoreSelectables (chainId : string)
| Refresh (chainId : string)
| Settle (n : nat).

Definition step (s : Step) (w : World Env) : World Env :=
  match s with
  | Do c => snd (run c w)
  | GetKeyStoreSelectables chainId => snd (getKeyStoreSelectables chainId w)
  | Refresh chainId => snd (refresh chainId w)
  | Settle n => snd (settle n w)
  end.

(** The worlds the system can be in. *)
Inductive reachable : World Env -> Prop :=
| reachable_new (env0 : Env) : reachable (new_KeyRingStore env0)
| reachable_step (s : Step) (w : World Env) :
    reachable w -> reachable (step s w).

(** *** Vocabulary of the properties *)

(** The message of the first boundary call a command issues. *)
Definition first_message (c : Command) : sigT Msg :=
  match c with
  | CreateMnemonicKey mnemonic password meta bip44HDPath =>
      existT _ _ (CreateMnemonicKeyMsg mnemonic password meta bip44HDPath)
  | CreatePrivateKey privateKey password meta =>
      existT _ _ (CreatePrivateKeyMsg (toString_hex privateKey) password meta)
  | CreateLedgerKey password meta bip44HDPath =>
      existT _ _ (CreateLedgerKeyMsg password meta bip44HDPath)
  | AddMnemonicKey mnemonic meta bip44HDPath =>
      existT _ _ (AddMnemonicKeyMsg mnemonic meta bip44HDPath)
  | AddPrivateKey privateKey meta =>
      existT _ _ (AddPrivateKeyMsg (toString_hex privateKey) meta)
  | AddLedgerKey meta bip44HDPath =>
      existT _ _ (AddLedgerKeyMsg meta bip44HDPath)
  | ChangeKeyRing index => existT _ _ (ChangeKeyRingMsg index)
  | Lock => existT _ _ LockKeyRingMsg
  | Unlock password => existT _ _ (UnlockKeyRingMsg password)
  | ShowKeyRing index password => existT _ _ (ShowKeyRingMsg index password)
  | DeleteKeyRing index password => existT _ _ (DeleteKeyRingMsg index password)
  | SetKeyStoreCoinType chainId coinType =>
      existT _ _ (SetKeyStoreCoinTypeMsg chainId coinType)
  end.

(** The promise of [msg], sent in [w], is rejected. *)
Definition rejects {A : Type} (msg : Msg A) (w : World Env) : Prop :=
  exists e, fst (sendMessage A BACKGROUND_PORT msg (env w)) = inl e.

(** The first boundary call of [c], issued in [w], is rejected. *)
Definition rejected_at_once (c : Command) (w : World Env) : Prop :=
  rejects (projT2 (first_message c)) w.

(** The commands whose assignments all follow their last boundary call. *)
Definition writes_last (c : Command) : bool :=
  match c with
  | AddMnemonicKey _ _ _ | AddPrivateKey _ _ | AddLedgerKey _ _
  | Lock | ShowKeyRing _ _ | SetKeyStoreCoinType _ _ => true
  | _ => false
  end.

Definition creates_key (c : Command) : bool :=
  match c with
  | CreateMnemonicKey _ _ _ _ | CreatePrivateKey _ _ _
  | CreateLedgerKey _ _ _ => true
  | _ => false
  end.

(** The commands that end with [selectablesMap.forEach(... refresh())]. *)
Definition refreshes_resolvers (c : Command) : bool :=
  match c with
  | ChangeKeyRing _ | SetKeyStoreCoinType _ _ => true
  | _ => false
  end.

(** A resolver with nothing left to select. *)
Definition is_resolved (self : KeyRingSelectablesStore) : Prop :=
  _isKeyStoreCoinTypeSet self = true /\ _selectables self = [].

(** Under a key ring that is not of a mnemonic every registered resolver
    is resolved. *)
Definition resolved_unless_mnemonic (this : KeyRingStore) : Prop :=
  keyRingType this <> "mnemonic" ->
  Forall (fun entry => is_resolved (snd entry)) (selectablesMap this).

(** The fields a resolver has after the synchronous part of a refresh. *)
Definition entered (keyRingType : string) (self : KeyRingSelectablesStore)
  : KeyRingSelectablesStore :=
  if String.eqb keyRingType "mnemonic" then set_isInitializing true self
  else {| isInitializing := false;
          _isKeyStoreCoinTypeSet := true;
          _selectables := [] |}.

(** The approvals of a list of waiting requests, as events. *)
Definition approvals_of (datas : list InteractionWaitingData) : list Event :=
  map (fun interaction =>
         Approved EnableKeyRingMsg_type (id interaction) []) datas.

(** The candidate queries of a list of chains, as events. *)
Definition queries_of (chainIds : list string) : list Event :=
  map (fun chainId => Sent BACKGROUND_PORT (candidatesMsg chainId)) chainIds.

(** The events the refreshes of all resolvers add under a kind. *)
Definition refresh_events (this : KeyRingStore) : list Event :=
  if String.eqb (keyRingType this) "mnemonic"
  then queries_of (map fst (selectablesMap this)) else [].


Definition is_dispatch (e : Event) : bool :=
  match e with Dispatched _ => true | _ => false end.

Definition is_approval (e : Event) : bool :=
  match e with Approved _ _ _ => true | _ => false end.

(** Between [w] and [w'] no resolver was refreshed: the resolvers are as
    they were and no flow was left in flight. *)
Definition no_refresh (w w' : World Env) : Prop :=
  selectablesMap (store w') = selectablesMap (store w) /\
  suspended w' = suspended w.

(** The mirrored fields of two worlds agree. *)
Definition same_mirror (w w' : World Env) : Prop :=
  status (store w') = status (store w) /\
  keyRingType (store w') = keyRingType (store w) /\
  multiKeyStoreInfo (store w') = multiKeyStoreInfo (store w).

(** The commands with an assignment to [keyRingType]. *)
Definition assigns_keyRingType (c : Command) : bool :=
  match c with
  | CreateMnemonicKey _ _ _ _ | CreatePrivateKey _ _ _ | CreateLedgerKey _ _ _
  | ChangeKeyRing _ | DeleteKeyRing _ _ => true
  | _ => false
  end.

(** The chains with a resolver, in the order of the map. *)
Definition registry (w : World Env) : list string :=
  map fst (selectablesMap (store w)).

(** A flow that neither adds nor removes a resolver. *)
Definition keeps_registry {A : Type} (f : flow (World Env) A) : Prop :=
  forall w, registry (snd (f w)) = registry w.

(** The commands under the ordering rule. *)
Definition ordered (c : Command) : bool :=
  match c with
  | ChangeKeyRing _ | DeleteKeyRing _ _ | SetKeyStoreCoinType _ _ => true
  | _ => false
  end.

(** The commands with an assignment to [status]. *)
Definition assigns_status (c : Command) : bool :=
  match c with
  | CreateMnemonicKey _ _ _ _ | CreatePrivateKey _ _ _
  | CreateLedgerKey _ _ _ | Lock | Unlock _ | DeleteKeyRing _ _
  | SetKeyStoreCoinType _ _ => true
  | _ => false
  end.

(** The commands with an assignment to [multiKeyStoreInfo]. *)
Definition assigns_multiKeyStoreInfo (c : Command) : bool :=
  match c with
  | AddMnemonicKey _ _ _ | AddPrivateKey _ _ | AddLedgerKey _ _
  | ChangeKeyRing _ | DeleteKeyRing _ _ | SetKeyStoreCoinType _ _ => true
  | _ => false
  end.

(** The window events in the code of a command. *)
Definition signals (c : Command) : list Event :=
  match c with
  | ChangeKeyRing _ | SetKeyStoreCoinType _ _ =>
      [Dispatched "keplr_keystorechange"]
  | Unlock _ => [Dispatched "keplr_keystoreunlock"]
  | _ => []
  end.

(** The message of the second boundary call in the code of a command, for
    the commands that have one. *)
Definition second_message (c : Command) : list Event :=
  match c with
  | CreateMnemonicKey _ _ _ _ | CreatePrivateKey _ _ _
  | CreateLedgerKey _ _ _ | ChangeKeyRing _ | DeleteKeyRing _ _ =>
      [Sent BACKGROUND_PORT GetKeyRingTypeMsg]
  | SetKeyStoreCoinType _ _ => [Sent BACKGROUND_PORT GetMultiKeyStoreInfoMsg]
  | _ => []
  end.

Definition is_unlock (c : Command) : bool :=
  match c with Unlock _ => true | _ => false end.

(** Every refresh in flight is the refresh of a registered resolver. *)
Definition in_flight_registered (w : World Env) : Prop :=
  forall chainId reply,
    In (AwaitSelectables chainId reply) (suspended w) ->
    In chainId (registry w).

(** A flow that keeps a property of the world. *)
Definition preserves {A : Type} (P : World Env -> Prop)
  (f : flow (World Env) A) : Prop :=
  forall w, P w -> P (snd (f w)).

(** The second boundary call in the code of a command, for the commands
    that have one. *)
Definition second_call (c : Command) : option (sigT Msg) :=
  match c with
  | CreateMnemonicKey _ _ _ _ | CreatePrivateKey _ _ _
  | CreateLedgerKey _ _ _ | ChangeKeyRing _ | DeleteKeyRing _ _ =>
      Some (existT _ _ GetKeyRingTypeMsg)
  | SetKeyStoreCoinType _ _ => Some (existT _ _ GetMultiKeyStoreInfoMsg)
  | _ => None
  end.

(** The assignments that the code of a command makes from the answer to
    its first boundary call, before its next boundary call. *)
Definition first_write (c : Command)
  : projT1 (first_message c) -> KeyRingStore -> KeyRingStore :=
  match c as c0
    return projT1 (first_message c0) -> KeyRingStore -> KeyRingStore with
  | CreateMnemonicKey _ _ _ _ =>
      fun result => set_status (result_status result)
  | CreatePrivateKey _ _ _ => fun result => set_status (result_status result)
  | CreateLedgerKey _ _ _ => fun result => set_status (result_status result)
  | AddMnemonicKey _ _ _ => fun info => set_multiKeyStoreInfo info
  | AddPrivateKey _ _ => fun info => set_multiKeyStoreInfo info
  | AddLedgerKey _ _ => fun info => set_multiKeyStoreInfo info
  | ChangeKeyRing _ => fun info => set_multiKeyStoreInfo info
  | Lock => fun result => set_status (result_status result)
  | Unlock _ => fun result => set_status (result_status result)
  | ShowKeyRing _ _ => fun _ this => this
  | DeleteKeyRing _ _ =>
      fun result this =>
        set_multiKeyStoreInfo (delete_multiKeyStoreInfo result)
          (set_status (delete_status result) this)
  | SetKeyStoreCoinType _ _ => fun _ this => this
  end.

(** The interaction store fulfils the approvals of [datas], asked for one
    after the other with the payload of [unlock], and goes from the first
    state to the second. *)
Inductive approved : list InteractionWaitingData -> Env -> Env -> Prop :=
| approved_nil (e : Env) : approved [] e e
| approved_cons (d : InteractionWaitingData)
    (rest : list InteractionWaitingData) (e e1 e2 : Env) :
    approve EnableKeyRingMsg_type (id d) [] e = (inr tt, e1) ->
    approved rest e1 e2 ->
    approved (d :: rest) e e2.

End Stores.

(** ** A scripted boundary

    An authority that answers the messages it receives from a list, and an
    interaction store with a list of waiting "enable key ring" requests.
    It gives the concrete runs below. *)

Inductive Reply : Type :=
| ReplyStatus (s : KeyRingStatus)
| ReplyInfo (i : MultiKeyStoreInfoWithSelected)
| ReplyString (t : string)
| ReplyRestore (r : RestoreResult)
| ReplyDelete (r : DeleteResult)
| ReplySelectables (l : list Selectable)
| Reject (e : Error).

Record Script : Type :=
  { replies : list Reply;
    waiting : list InteractionWaitingData;
    approvals : list (Settled unit) }.

Definition mismatch {A : Type} : Settled A := inl "unexpected reply".

Definition as_status (r : Reply) : Settled StatusResult :=
  match r with
  | ReplyStatus s => inr {| result_status := s |}
  | Reject e => inl e
  | _ => mismatch
  end.

Definition as_info (r : Reply) : Settled MultiKeyStoreInfoWithSelected :=
  match r with ReplyInfo i => inr i | Reject e => inl e | _ => mismatch end.

Definition as_string (r : Reply) : Settled string :=
  match r with ReplyString t => inr t | Reject e => inl e | _ => mismatch end.

Definition read_reply {A : Type} (msg : Msg A) (r : Reply) : Settled A :=
  match msg in Msg T return Settled T with
  | CreateMnemonicKeyMsg _ _ _ _ => as_status r
  | CreatePrivateKeyMsg _ _ _ => as_status r
  | CreateLedgerKeyMsg _ _ _ => as_status r
  | AddMnemonicKeyMsg _ _ _ => as_info r
  | AddPrivateKeyMsg _ _ => as_info r
  | AddLedgerKeyMsg _ _ => as_info r
  | ChangeKeyRingMsg _ => as_info r
  | LockKeyRingMsg => as_status r
  | UnlockKeyRingMsg _ => as_status r
  | RestoreKeyRingMsg =>
      match r with
      | ReplyRestore x => inr x | Reject e => inl e | _ => mismatch
      end
  | ShowKeyRingMsg _ _ => as_string r
  | DeleteKeyRingMsg _ _ =>
      match r with
      | ReplyDelete x => inr x | Reject e => inl e | _ => mismatch
      end
  | GetKeyRingTypeMsg => as_string r
  | GetMultiKeyStoreInfoMsg => as_info r
  | GetIsKeyStoreCoinTypeSetMsg _ _ =>
      match r with
      | ReplySelectables l => inr l | Reject e => inl e | _ => mismatch
      end
  | SetKeyStoreCoinTypeMsg _ _ =>
      match r with
      | ReplyStatus s => inr s | Reject e => inl e | _ => mismatch
      end
  end.

#[export] Instance script_requester : MessageRequester Script :=
  fun A port msg s =>
    match replies s with
    | [] => (inl "no reply", s)
    | r :: rest =>
        (read_reply msg r,
         {| replies := rest; waiting := waiting s; approvals := approvals s |})
    end.

#[export] Instance script_interactionStore : InteractionStore Script :=
  {| getDatas := fun type s =>
       if String.eqb type "enable-keyring" then waiting s else [];
     approve := fun type id0 result s =>
       let left := filter (fun d => negb (String.eqb (id d) id0)) (waiting s) in
       match approvals s with
       | [] => (inr tt, {| replies := replies s; waiting := left; approvals := [] |})
       | a :: rest =>
           (a, {| replies := replies s; waiting := left; approvals := rest |})
       end |}.

(** Every chain has the path of coin type 118 and the alternative 60. *)
#[export] Instance script_chainGetter : ChainGetter :=
  fun chainId =>
    {| bip44 := {| coinType := 118 |};
       alternativeBIP44s := Some [ {| coinType := 60 |} ] |}.

#[export] Instance script_imports : Imports :=
  {| BACKGROUND_PORT := "background";
     EnableKeyRingMsg_type := "enable-keyring" |}.

Definition script (l : list Reply) : Script :=
  {| replies := l; waiting := []; approvals := [] |}.

Definition world_of (this : KeyRingStore) (e : Script) : World Script :=
  {| store := this; env := e; suspended := []; events := [] |}.

Definition cosmos118 : Selectable :=
  {| path := {| coinType := 118 |}; bech32Address := "cosmos1aaa" |}.

Definition cosmos60 : Selectable :=
  {| path := {| coinType := 60 |}; bech32Address := "cosmos1bbb" |}.

Definition hd0 : BIP44HDPath := {| account := 0; change := 0; addressIndex := 0 |}.

(** A store without keys, as after a restore of an empty key ring. *)
Definition empty_store : KeyRingStore :=
  {| status := EMPTY; keyRingType := "none";
     multiKeyStoreInfo := []; selectablesMap := [] |}.

Definition mnemonic_info : MultiKeyStoreInfoWithSelected :=
  [ {| index := 0; kind := "mnemonic"; meta := [("name", "main")];
       selected := true |} ].

(** An unlocked mnemonic key ring with a resolved resolver for one chain. *)
Definition mnemonic_store : KeyRingStore :=
  {| status := UNLOCKED; keyRingType := "mnemonic";
     multiKeyStoreInfo := mnemonic_info;
     selectablesMap :=
       [("cosmoshub-4",
         {| isInitializing := false; _isKeyStoreCoinTypeSet := true;
            _selectables := [] |})] |}.

(** A locked ledger key ring with resolvers for two chains. *)
Definition ledger_store : KeyRingStore :=
  {| status := LOCKED; keyRingType := "ledger";
     multiKeyStoreInfo :=
       [ {| index := 0; kind := "ledger"; meta := []; selected := true |} ];
     selectablesMap :=
       [("cosmoshub-4",
         {| isInitializing := false; _isKeyStoreCoinTypeSet := true;
            _selectables := [] |});
        ("osmosis-1",
         {| isInitializing := false; _isKeyStoreCoinTypeSet := true;
            _selectables := [] |})] |}.

(** Three "enable key ring" requests wait for the unlock. *)
Definition three_waiting (l : list Reply) (a : list (Settled unit)) : Script :=
  {| replies := l;
     waiting := [ {| id := "a" |}; {| id := "b" |}; {| id := "c" |} ];
     approvals := a |}.

(** An unlocked mnemonic key ring whose resolver shows two candidates. *)
Definition ambiguous_store : KeyRingStore :=
  {| status := UNLOCKED; keyRingType := "mnemonic";
     multiKeyStoreInfo := mnemonic_info;
     selectablesMap :=
       [("cosmoshub-4",
         {| isInitializing := false; _isKeyStoreCoinTypeSet := false;
            _selectables := [cosmos118; cosmos60] |})] |}.

Definition ledger_info : MultiKeyStoreInfoWithSelected :=
  [ {| index := 0; kind := "mnemonic"; meta := [("name", "main")];
       selected := false |};
    {| index := 1; kind := "ledger"; meta := [("name", "nano")];
       selected := true |} ].

Definition create_mnemonic : Command :=
  CreateMnemonicKey "seed" "pw" [("name", "main")] hd0.

Definition create_ledger : Command :=
  CreateLedgerKey "pw" [("name", "nano")] hd0.

(** The store is constructed over an authority that holds a mnemonic key,
    a resolver is asked for and gets two candidates, and then a ledger key
    is created. *)
Definition ledger_after_mnemonic : World Script :=
  step (Do create_ledger)
    (step (Settle 0)
       (step (GetKeyStoreSelectables "cosmoshub-4")
          (step (Settle 0)
             (new_KeyRingStore
                (script
                   [ReplyRestore
                      {| restore_status := UNLOCKED;
                         restore_type := "mnemonic";
                         restore_multiKeyStoreInfo := mnemonic_info |};
                    ReplySelectables [cosmos118; cosmos60];
                    ReplyStatus UNLOCKED;
                    ReplyString "ledger"]))))).

(** The scenarios of the concrete runs. *)

(** The authority rejects the creation of a key at once. *)
Definition create_denied : World Script :=
  world_of empty_store (script [Reject "denied"]).

(** The authority creates the key and rejects the query of its type. *)
Definition create_then_denied : World Script :=
  world_of empty_store (script [ReplyStatus UNLOCKED; Reject "denied"]).

(** The authority creates a ledger key and reports its type. *)
Definition create_answered : World Script :=
  world_of empty_store (script [ReplyStatus UNLOCKED; ReplyString "ledger"]).

(** The candidate query of a refresh is rejected. *)
Definition query_denied : World Script :=
  world_of mnemonic_store (script [Reject "denied"]).



(** A ledger key ring over an authority that would answer a candidate query
    with two candidates. *)
Definition ledger_with_candidates : World Script :=
  world_of ledger_store (script [ReplySelectables [cosmos118; cosmos60]]).

(** The active key changes from the mnemonic to a ledger. *)
Definition change_to_ledger : World Script :=
  world_of ambiguous_store (script [ReplyInfo ledger_info; ReplyString "ledger"]).

(** The active key changes from a ledger to the mnemonic. *)
Definition change_to_mnemonic : World Script :=
  world_of ledger_store
    (script [ReplyInfo mnemonic_info; ReplyString "mnemonic";
             ReplySelectables []; ReplySelectables []]).

(** A wrong password. *)
Definition unlock_denied : World Script :=
  world_of ledger_store (three_waiting [Reject "wrong password"] []).


(** The right password, and the second approval is rejected. *)
Definition unlock_approval_denied : World Script :=
  world_of ledger_store
    (three_waiting [ReplyStatus UNLOCKED] [inr tt; inl "closed"]).

(** A resolver is asked for under a mnemonic key ring, and the active key
    changes to a ledger before the answer to its candidate query arrives. *)
Definition changed_before_reply : World Script :=
  step (Do (ChangeKeyRing 1))
    (step (GetKeyStoreSelectables "cosmoshub-4")
       (step (Settle 0)
          (new_KeyRingStore
             (script
                [ReplyRestore
                   {| restore_status := UNLOCKED;
                      restore_type := "mnemonic";
                      restore_multiKeyStoreInfo := mnemonic_info |};
                 ReplySelectables [cosmos118; cosmos60];
                 ReplyInfo ledger_info;
                 ReplyString "ledger"])))).

(** The candidate query is answered with two candidates. *)
Definition two_candidates : World Script :=
  world_of mnemonic_store (script [ReplySelectables [cosmos118; cosmos60]]).

(** The authority locks the key ring. *)
Definition lock_answered : World Script :=
  world_of mnemonic_store (script [ReplyStatus LOCKED]).

(** The authority deletes the mnemonic key, which leaves a ledger key
    selected, and rejects the query of the key ring type. *)
Definition delete_then_denied : World Script :=
  world_of mnemonic_store
    (script
       [ReplyDelete
          {| delete_status := LOCKED;
             delete_multiKeyStoreInfo :=
               [ {| index := 0; kind := "ledger"; meta := [("name", "nano")];
                    selected := true |} ] |};
        Reject "denied"]).

(** A mnemonic key ring with a resolved resolver and one that shows two
    candidates; the next candidate query is answered with two candidates. *)
Definition two_chains : World Script :=
  world_of
    {| status := UNLOCKED; keyRingType := "mnemonic";
       multiKeyStoreInfo := mnemonic_info;
       selectablesMap :=
         [("cosmoshub-4",
           {| isInitializing := false; _isKeyStoreCoinTypeSet := true;
              _selectables := [] |});
          ("osmosis-1",
           {| isInitializing := false; _isKeyStoreCoinTypeSet := false;
              _selectables := [cosmos118; cosmos60] |})] |}
    (script [ReplySelectables [cosmos118; cosmos60]]).

(** * Properties *)

Section Properties.

Context {Env : Type}.
Context {requester : MessageRequester Env}.
Context {interactionStore : InteractionStore Env}.
Context {chainGetter : ChainGetter}.
Context {imports : Imports}.

(** ** The map *)

Lemma Map_get_alter_same {V : Type} (f : V -> V) (key : string)
  (m : list (string * V)) :
  Map_get (Map_alter f key m) key = option_map f (Map_get m key).
Proof.
  induction m as [|[k v] m IH]; simpl; [reflexivity|].
  destruct (String.eqb k key) eqn:E; simpl; rewrite E; [reflexivity|exact IH].
Qed.

Lemma Map_get_alter_other {V : Type} (f : V -> V) (key k : string)
  (m : list (string * V)) :
  k <> key -> Map_get (Map_alter f key m) k = Map_get m k.
Proof.
  intros Hk. induction m as [|[k0 v] m IH]; simpl; [reflexivity|].
  destruct (String.eqb k0 key) eqn:E; simpl.
  - apply String.eqb_eq in E. subst k0.
    destruct (String.eqb key k) eqn:E'; [|exact IH].
    apply String.eqb_eq in E'. congruence.
  - rewrite IH. reflexivity.
Qed.

Lemma Map_alter_keys {V : Type} (f : V -> V) (key : string)
  (m : list (string * V)) :
  map fst (Map_alter f key m) = map fst m.
Proof.
  unfold Map_alter. rewrite map_map. apply map_ext. intros [k v]. simpl.
  destruct (String.eqb k key); reflexivity.
Qed.

Lemma Map_get_key {V : Type} (m : list (string * V)) (key : string) :
  In key (map fst m) -> exists v, Map_get m key = Some v.
Proof.
  induction m as [|[k v] m IH]; simpl; [tauto|].
  intros [->|Hin].
  - rewrite String.eqb_refl. eauto.
  - destruct (String.eqb k key); eauto.
Qed.

(** ** Running flows *)

Ltac flows :=
  unfold createMnemonicKey, createPrivateKey, createLedgerKey, addMnemonicKey,
    addPrivateKey, addLedgerKey, changeKeyRing, lock, unlock, showKeyRing,
    deleteKeyRing, setKeyStoreCoinType, restore, restore_resume,
    forEach_refresh, bind, ret, assign_self, assign, await_sendMessage,
    await_approve, dispatchEvent, record in *.

Ltac reply :=
  match goal with
  | H : context [match sendMessage ?A ?p ?m ?e with (_, _) => _ end] |- _ =>
      let E := fresh "Sent" in
      destruct (sendMessage A p m e) as [[?|?] ?] eqn:E; simpl in H
  | |- context [match sendMessage ?A ?p ?m ?e with (_, _) => _ end] =>
      let E := fresh "Sent" in
      destruct (sendMessage A p m e) as [[?|?] ?] eqn:E; simpl
  end.

Ltac done :=
  repeat match goal with
    | H : (_, _) = (_, _) |- _ => inversion H; clear H; subst
    | H : exists _, _ |- _ => destruct H
    | H : _ /\ _ |- _ => destruct H
    end;
  simpl in *; try discriminate; try congruence; auto.

(** The loop of [unlock] leaves the store alone and approves a prefix of
    the waiting requests, one after the other. *)
Lemma approve_each_events (datas : list InteractionWaitingData)
  (w w' : World Env) (r : Settled unit) :
  approve_each datas w = (r, w') ->
  store w' = store w /\ suspended w' = suspended w /\
  exists n,
    events w' = events w ++ approvals_of (firstn n datas) /\
    match r with
    | inr _ => n = length datas
    | inl _ => 0 < n <= length datas
    end.
Proof.
  revert w. induction datas as [|d datas IH]; intros w H; simpl in H.
  - unfold ret in H. done. repeat split; auto.
    exists 0%nat. simpl. rewrite app_nil_r. auto.
  - unfold bind, await_approve in H.
    destruct (approve EnableKeyRingMsg_type (id d) [] (env w)) as [[e|[]] env1].
    + done. repeat split; auto. exists 1%nat. simpl. split; [reflexivity|lia].
    + apply IH in H. simpl in H. destruct H as (Hs & Hp & n & He & Hn).
      repeat split; auto. exists (S n). simpl. rewrite He, <- app_assoc.
      split; [reflexivity|]. destruct r; lia.
Qed.

(** ** The refresh of all resolvers *)

Lemma entered_idempotent (keyRingType : string) (self : KeyRingSelectablesStore) :
  entered keyRingType (entered keyRingType self) = entered keyRingType self.
Proof. unfold entered. destruct (String.eqb keyRingType "mnemonic"); reflexivity. Qed.

Lemma refresh_begin_entered (chainId keyRingType : string)
  (self : KeyRingSelectablesStore) :
  refresh_begin chainId keyRingType self =
  (entered keyRingType self,
   if String.eqb keyRingType "mnemonic" then Some (candidatesMsg chainId)
   else None).
Proof.
  unfold refresh_begin, entered.
  destruct (String.eqb keyRingType "mnemonic"); reflexivity.
Qed.

Lemma Map_alter_ext {V : Type} (f g : V -> V) (key : string)
  (m : list (string * V)) :
  (forall v, f v = g v) -> Map_alter f key m = Map_alter g key m.
Proof.
  intros H. unfold Map_alter. apply map_ext. intros [k v]. simpl.
  rewrite H. reflexivity.
Qed.

Lemma refresh_enter_spec (chainId : string) (w : World Env)
  (self : KeyRingSelectablesStore) :
  Map_get (selectablesMap (store w)) chainId = Some self ->
  refresh_enter chainId w =
  ({| store := set_selectablesMap
                 (Map_alter (entered (keyRingType (store w))) chainId
                    (selectablesMap (store w))) (store w);
      env := env w; suspended := suspended w; events := events w |},
   if String.eqb (keyRingType (store w)) "mnemonic"
   then Some (candidatesMsg chainId) else None).
Proof.
  intros H. unfold refresh_enter. rewrite H.
  rewrite refresh_begin_entered. simpl. f_equal. f_equal. f_equal.
  apply Map_alter_ext. intros v. rewrite refresh_begin_entered. reflexivity.
Qed.

Lemma call_refresh_spec (chainId : string) (w : World Env)
  (self : KeyRingSelectablesStore) :
  Map_get (selectablesMap (store w)) chainId = Some self ->
  store (call_refresh chainId w) =
    set_selectablesMap
      (Map_alter (entered (keyRingType (store w))) chainId
         (selectablesMap (store w))) (store w) /\
  events (call_refresh chainId w) =
    events w ++
    (if String.eqb (keyRingType (store w)) "mnemonic"
     then [Sent BACKGROUND_PORT (candidatesMsg chainId)] else []) /\
  (keyRingType (store w) <> "mnemonic" ->
   env (call_refresh chainId w) = env w /\
   suspended (call_refresh chainId w) = suspended w).
Proof.
  intros H. unfold call_refresh. rewrite (refresh_enter_spec _ _ _ H).
  destruct (String.eqb (keyRingType (store w)) "mnemonic") eqn:E.
  - unfold post. simpl.
    destruct (sendMessage _ BACKGROUND_PORT (candidatesMsg chainId) (env w))
      as [r env1].
    simpl. split; [reflexivity|]. split; [reflexivity|].
    intros Hk. apply String.eqb_eq in E. contradiction.
  - simpl. rewrite app_nil_r. auto.
Qed.

Lemma refresh_each_spec (l : list string) (w : World Env) :
  (forall c, In c l -> In c (map fst (selectablesMap (store w)))) ->
  store (fold_left (fun w0 c => call_refresh c w0) l w) =
    set_selectablesMap
      (map (fun entry =>
              if existsb (String.eqb (fst entry)) l
              then (fst entry, entered (keyRingType (store w)) (snd entry))
              else entry)
         (selectablesMap (store w))) (store w) /\
  events (fold_left (fun w0 c => call_refresh c w0) l w) =
    events w ++
    (if String.eqb (keyRingType (store w)) "mnemonic" then queries_of l
     else []) /\
  (keyRingType (store w) <> "mnemonic" ->
   env (fold_left (fun w0 c => call_refresh c w0) l w) = env w /\
   suspended (fold_left (fun w0 c => call_refresh c w0) l w) = suspended w).
Proof.
  revert w. induction l as [|c l IH]; intros w Hin; simpl.
  - repeat split; auto.
    + destruct (store w) as [s k i m]. unfold set_selectablesMap. simpl.
      f_equal. symmetry. apply map_id.
    + destruct (String.eqb _ _); simpl; rewrite app_nil_r; reflexivity.
  - destruct (Map_get_key (selectablesMap (store w)) c) as [self Hself].
    { apply Hin. left. reflexivity. }
    destruct (call_refresh_spec c w self Hself) as (Hs & He & Hq).
    assert (Hk : keyRingType (store (call_refresh c w)) = keyRingType (store w)).
    { rewrite Hs. reflexivity. }
    destruct (IH (call_refresh c w)) as (Hs' & He' & Hq').
    { intros c' Hc'. rewrite Hs. simpl. rewrite Map_alter_keys.
      apply Hin. right. exact Hc'. }
    rewrite Hk in *. repeat split.
    + rewrite Hs'. rewrite Hs. unfold set_selectablesMap. simpl. f_equal.
      unfold Map_alter. rewrite map_map. apply map_ext. intros [k v]. simpl.
      destruct (String.eqb k c) eqn:E; simpl.
      * rewrite entered_idempotent. destruct (existsb _ l); reflexivity.
      * reflexivity.
    + rewrite He', He. rewrite <- app_assoc.
      destruct (String.eqb (keyRingType (store w)) "mnemonic"); reflexivity.
    + destruct (Hq' H). destruct (Hq H). congruence.
    + destruct (Hq' H). destruct (Hq H). congruence.
Qed.

Lemma existsb_key {V : Type} (m : list (string * V)) (entry : string * V) :
  In entry m -> existsb (String.eqb (fst entry)) (map fst m) = true.
Proof.
  intros H. apply existsb_exists. exists (fst entry). split.
  - apply in_map. exact H.
  - apply String.eqb_refl.
Qed.

(** After [forEach(... refresh())] every resolver has entered its refresh
    under the key ring type of that moment, and one candidate query has
    left for each of them if that type is a mnemonic's. *)
Lemma forEach_refresh_spec (w : World Env) :
  fst (forEach_refresh w) = inr tt /\
  store (snd (forEach_refresh w)) =
    set_selectablesMap
      (map (fun entry => (fst entry, entered (keyRingType (store w)) (snd entry)))
         (selectablesMap (store w))) (store w) /\
  events (snd (forEach_refresh w)) = events w ++ refresh_events (store w) /\
  (keyRingType (store w) <> "mnemonic" ->
   env (snd (forEach_refresh w)) = env w /\
   suspended (snd (forEach_refresh w)) = suspended w).
Proof.
  unfold forEach_refresh. simpl.
  destruct (refresh_each_spec (map fst (selectablesMap (store w))) w)
    as (Hs & He & Hq); [auto|].
  repeat split.
  - rewrite Hs. f_equal. apply map_ext_in. intros entry Hin.
    rewrite (existsb_key _ _ Hin). reflexivity.
  - rewrite He. reflexivity.
  - apply Hq. assumption.
  - apply Hq. assumption.
Qed.

(** ** Fulfilled boundary calls *)

Lemma await_sendMessage_bind {A B : Type} (msg : Msg A)
  (k : A -> flow (World Env) B) (w : World Env) (a : A) (env1 : Env) :
  sendMessage A BACKGROUND_PORT msg (env w) = (inr a, env1) ->
  (x <- await_sendMessage msg ;; k x) w =
  k a {| store := store w; env := env1; suspended := suspended w;
         events := events w ++ [Sent BACKGROUND_PORT msg] |}.
Proof. intros H. unfold bind, await_sendMessage. rewrite H. reflexivity. Qed.

Ltac fulfilled H :=
  cbv beta;
  match goal with
  | |- context [bind (await_sendMessage ?m) ?k ?w0] =>
      rewrite (await_sendMessage_bind m k w0 _ _ H)
  end.

Lemma await_sendMessage_rejected {A B : Type} (msg : Msg A)
  (k : A -> flow (World Env) B) (w : World Env) (e : Error) (env1 : Env) :
  sendMessage A BACKGROUND_PORT msg (env w) = (inl e, env1) ->
  (x <- await_sendMessage msg ;; k x) w =
  (inl e,
   {| store := store w; env := env1; suspended := suspended w;
      events := events w ++ [Sent BACKGROUND_PORT msg] |}).
Proof. intros H. unfold bind, await_sendMessage. rewrite H. reflexivity. Qed.

Ltac rejected H :=
  cbv beta;
  match goal with
  | |- context [bind (await_sendMessage ?m) ?k ?w0] =>
      rewrite (await_sendMessage_rejected m k w0 _ _ H)
  end.

Lemma assign_bind {B : Type} (f : KeyRingStore -> KeyRingStore)
  (k : unit -> flow (World Env) B) (w : World Env) :
  (x <- assign f ;; k x) w =
  k tt {| store := f (store w); env := env w; suspended := suspended w;
          events := events w |}.
Proof. reflexivity. Qed.

Ltac assigned :=
  cbv beta;
  match goal with
  | |- context [bind (assign ?f) ?k ?w0] => rewrite (assign_bind f k w0)
  end.

(** The loop of [unlock] over approvals that are all fulfilled. *)
Lemma approve_each_approved (datas : list InteractionWaitingData)
  (e1 e2 : Env) :
  approved datas e1 e2 ->
  forall w, env w = e1 ->
    approve_each datas w =
    (inr tt,
     {| store := store w; env := e2; suspended := suspended w;
        events := events w ++ approvals_of datas |}).
Proof.
  induction 1 as [e|d rest e e1 e2 Hd Hrest IH]; intros w Hw; simpl.
  - unfold ret. rewrite app_nil_r, <- Hw. destruct w. reflexivity.
  - unfold bind, await_approve. rewrite Hw, Hd.
    rewrite IH by reflexivity. simpl. rewrite <- app_assoc. reflexivity.
Qed.

(** The loop of [unlock] up to an approval that is rejected. *)
Lemma approve_each_rejected (before : list InteractionWaitingData)
  (d : InteractionWaitingData) (after : list InteractionWaitingData)
  (e1 ek e2 : Env) (e : Error) :
  approved before e1 ek ->
  approve EnableKeyRingMsg_type (id d) [] ek = (inl e, e2) ->
  forall w, env w = e1 ->
    approve_each (before ++ d :: after) w =
    (inl e,
     {| store := store w; env := e2; suspended := suspended w;
        events := events w ++ approvals_of (before ++ [d]) |}).
Proof.
  induction 1 as [e0|d0 rest e0 e1 ek Hd0 Hrest IH]; intros Hd w Hw; simpl.
  - unfold bind, await_approve. rewrite Hw, Hd. reflexivity.
  - unfold bind, await_approve. rewrite Hw, Hd0.
    rewrite (IH Hd) by reflexivity. simpl. rewrite <- app_assoc. reflexivity.
Qed.

(** A fulfilled [setKeyStoreCoinType] is the refresh of all resolvers run
    from the world in which both assignments are made and the signal is
    dispatched. *)
Lemma setKeyStoreCoinType_fulfilled (chainId : string) (coinType : Z)
  (w : World Env) (status : KeyRingStatus) (env1 : Env)
  (info : MultiKeyStoreInfoWithSelected) (env2 : Env) :
  sendMessage _ BACKGROUND_PORT (SetKeyStoreCoinTypeMsg chainId coinType) (env w)
    = (inr status, env1) ->
  sendMessage _ BACKGROUND_PORT GetMultiKeyStoreInfoMsg env1
    = (inr info, env2) ->
  setKeyStoreCoinType chainId coinType w =
  forEach_refresh
    {| store := set_status status (set_multiKeyStoreInfo info (store w));
       env := env2; suspended := suspended w;
       events := events w ++
                 [Sent BACKGROUND_PORT (SetKeyStoreCoinTypeMsg chainId coinType);
                  Sent BACKGROUND_PORT GetMultiKeyStoreInfoMsg;
                  Dispatched "keplr_keystorechange"] |}.
Proof.
  intros H1 H2. unfold setKeyStoreCoinType. fulfilled H1. fulfilled H2.
  unfold bind, assign, dispatchEvent, record. simpl.
  repeat rewrite <- app_assoc. reflexivity.
Qed.

(** The same for [changeKeyRing]. *)
Lemma changeKeyRing_fulfilled (index : Z) (w : World Env)
  (info : MultiKeyStoreInfoWithSelected) (env1 : Env) (type : string)
  (env2 : Env) :
  sendMessage _ BACKGROUND_PORT (ChangeKeyRingMsg index) (env w)
    = (inr info, env1) ->
  sendMessage _ BACKGROUND_PORT GetKeyRingTypeMsg env1 = (inr type, env2) ->
  changeKeyRing index w =
  forEach_refresh
    {| store := set_keyRingType type (set_multiKeyStoreInfo info (store w));
       env := env2; suspended := suspended w;
       events := events w ++
                 [Sent BACKGROUND_PORT (ChangeKeyRingMsg index);
                  Sent BACKGROUND_PORT GetKeyRingTypeMsg;
                  Dispatched "keplr_keystorechange"] |}.
Proof.
  intros H1 H2. unfold changeKeyRing. fulfilled H1.
  unfold bind at 1, assign at 1. fulfilled H2.
  unfold bind, assign, dispatchEvent, record. simpl.
  repeat rewrite <- app_assoc. reflexivity.
Qed.



(** Under a mnemonic key ring [refresh] marks its resolver as initializing
    and goes on with the answer to its candidate query. *)
Lemma refresh_mnemonic_enter (chainId : string) (w : World Env)
  (self : KeyRingSelectablesStore) :
  keyRingType (store w) = "mnemonic" ->
  Map_get (selectablesMap (store w)) chainId = Some self ->
  refresh chainId w =
  (seletables <- await_sendMessage (candidatesMsg chainId) ;;
   refresh_resume chainId seletables)
    {| store := set_selectablesMap
                  (Map_alter (set_isInitializing true) chainId
                     (selectablesMap (store w))) (store w);
       env := env w; suspended := suspended w; events := events w |}.
Proof.
  intros Hk Hself. unfold refresh.
  rewrite (refresh_enter_spec _ _ _ Hself), Hk. reflexivity.
Qed.

(** ** Rejected commands *)

(** C1, as amended: a command whose first boundary call is rejected ends
    with that rejection and leaves the whole store as it was.  A command
    whose first call is answered and whose second call (the query of the
    key ring type in the create-key commands, changeKeyRing and
    deleteKeyRing, the query of the inventory in setKeyStoreCoinType) is
    rejected ends with that rejection and with the store as it was but for
    the assignments made from the first answer: [status] in the create-key
    commands, [multiKeyStoreInfo] in changeKeyRing, both in deleteKeyRing,
    none in setKeyStoreCoinType.  [unlock] with its message answered and
    an approval rejected ends with that rejection and keeps the [status] of
    the answer. *)
Theorem rejected_command_store (c : Command) (w : World Env) :
  (forall e env1,
     sendMessage _ BACKGROUND_PORT (projT2 (first_message c)) (env w)
       = (inl e, env1) ->
     run c w =
     (inl e,
      {| store := store w; env := env1; suspended := suspended w;
         events := events w ++
                   [Sent BACKGROUND_PORT (projT2 (first_message c))] |})) /\
  (forall answer env1 second e env2,
     sendMessage _ BACKGROUND_PORT (projT2 (first_message c)) (env w)
       = (inr answer, env1) ->
     second_call c = Some second ->
     sendMessage _ BACKGROUND_PORT (projT2 second) env1 = (inl e, env2) ->
     run c w =
     (inl e,
      {| store := first_write c answer (store w); env := env2;
         suspended := suspended w;
         events := events w ++
                   [Sent BACKGROUND_PORT (projT2 (first_message c));
                    Sent BACKGROUND_PORT (projT2 second)] |})) /\
  (forall password answer env1 before d after envk e env2,
     c = Unlock password ->
     sendMessage _ BACKGROUND_PORT (projT2 (first_message c)) (env w)
       = (inr answer, env1) ->
     getDatas EnableKeyRingMsg_type env1 = before ++ d :: after ->
     approved before env1 envk ->
     approve EnableKeyRingMsg_type (id d) [] envk = (inl e, env2) ->
     run c w =
     (inl e,
      {| store := first_write c answer (store w); env := env2;
         suspended := suspended w;
         events := events w ++
                   Sent BACKGROUND_PORT (projT2 (first_message c))
                   :: approvals_of (before ++ [d]) |})).
Proof.
  split; [|split].
  - intros e env1 H.
    destruct c; simpl in H |- *;
      unfold createMnemonicKey, createPrivateKey, createLedgerKey,
        addMnemonicKey, addPrivateKey, addLedgerKey, changeKeyRing, lock,
        unlock, showKeyRing, deleteKeyRing, setKeyStoreCoinType;
      rejected H; reflexivity.
  - intros answer env1 second e env2 H1 Hsecond H2.
    destruct c; simpl in Hsecond; try discriminate;
      injection Hsecond as <-; simpl in H1, H2 |- *;
      unfold createMnemonicKey, createPrivateKey, createLedgerKey,
        changeKeyRing, deleteKeyRing, setKeyStoreCoinType;
      fulfilled H1; repeat assigned;
      rejected H2; simpl; rewrite <- app_assoc; reflexivity.
  - intros password answer env1 before d after envk e env2 -> H1 Hdatas
      Hbefore Hd.
    simpl in H1 |- *. unfold unlock. fulfilled H1. assigned.
    unfold bind at 1. cbn [env]. rewrite Hdatas.
    rewrite (approve_each_rejected _ _ after _ _ _ _ Hbefore Hd) by reflexivity.
    simpl. rewrite <- app_assoc. reflexivity.
Qed.

(** C8: when the promise of the unlock message is rejected, [unlock] ends
    with that rejection, the store ([status] included) is as before, and the
    only new event is the message itself: nothing is approved and no unlock
    signal is dispatched. *)
Theorem unlock_rejected (password : string) (w : World Env) (e : Error)
  (env1 : Env) :
  sendMessage _ BACKGROUND_PORT (UnlockKeyRingMsg password) (env w)
    = (inl e, env1) ->
  exists w',
    unlock password w = (inl e, w') /\
    store w' = store w /\
    events w' = events w ++ [Sent BACKGROUND_PORT (UnlockKeyRingMsg password)].
Proof.
  intros H. flows. rewrite H. eexists. split; [reflexivity|]. simpl. auto.
Qed.


(** C10: when the unlock message is answered and, after any number of
    fulfilled approvals, an approval is rejected, [unlock] ends with that
    rejection; [status] has the value of the answer, which was assigned
    before the first approval (it is there even when the first approval is
    the rejected one); the events are the message and the approvals up to
    the rejected one, so the unlock signal is not dispatched. *)
Theorem unlock_approval_rejected (password : string) (w : World Env)
  (result : StatusResult) (env1 : Env)
  (before : list InteractionWaitingData) (d : InteractionWaitingData)
  (after : list InteractionWaitingData) (envk : Env) (e : Error)
  (env2 : Env) :
  sendMessage _ BACKGROUND_PORT (UnlockKeyRingMsg password) (env w)
    = (inr result, env1) ->
  getDatas EnableKeyRingMsg_type env1 = before ++ d :: after ->
  approved before env1 envk ->
  approve EnableKeyRingMsg_type (id d) [] envk = (inl e, env2) ->
  unlock password w =
  (inl e,
   {| store := set_status (result_status result) (store w);
      env := env2; suspended := suspended w;
      events := events w ++
                Sent BACKGROUND_PORT (UnlockKeyRingMsg password)
                :: approvals_of (before ++ [d]) |}).
Proof.
  intros Hsent Hdatas Hbefore Hd. unfold unlock. fulfilled Hsent. assigned.
  unfold bind at 1. cbn [env]. rewrite Hdatas.
  rewrite (approve_each_rejected _ _ after _ _ _ _ Hbefore Hd) by reflexivity.
  simpl. rewrite <- app_assoc. reflexivity.
Qed.

(** ** Created keys *)

(** C4, as amended: a successful create-key command changes [status] and
    [keyRingType] and nothing else: [multiKeyStoreInfo], the resolvers and
    the flows in flight are as before. *)
Theorem createKey_frame (c : Command) (w w' : World Env) :
  creates_key c = true ->
  run c w = (inr tt, w') ->
  store w' =
    set_keyRingType (keyRingType (store w'))
      (set_status (status (store w')) (store w)) /\
  suspended w' = suspended w.
Proof.
  intros Hc H. destruct c; simpl in Hc; try discriminate; simpl in H; flows;
    repeat (reply; done).
Qed.

(** ** The refresh of one resolver *)

(** C7: under a key ring type other than "mnemonic", [refresh] sends
    nothing (no event, the authority and the flows in flight untouched), is
    fulfilled, and leaves its resolver resolved, without candidates and not
    initializing, whatever the authority would answer. *)
Theorem refresh_not_mnemonic (chainId : string) (w : World Env)
  (self : KeyRingSelectablesStore) :
  keyRingType (store w) <> "mnemonic" ->
  Map_get (selectablesMap (store w)) chainId = Some self ->
  exists w',
    refresh chainId w = (inr tt, w') /\
    Map_get (selectablesMap (store w')) chainId =
      Some {| isInitializing := false;
              _isKeyStoreCoinTypeSet := true;
              _selectables := [] |} /\
    events w' = events w /\ env w' = env w /\ suspended w' = suspended w.
Proof.
  intros Hk Hself. unfold refresh. rewrite (refresh_enter_spec _ _ _ Hself).
  apply String.eqb_neq in Hk. rewrite Hk.
  eexists. split; [reflexivity|]. simpl.
  rewrite Map_get_alter_same, Hself. unfold entered. rewrite Hk. auto.
Qed.

(** C2, as amended: under a mnemonic key ring, the only one under which
    [refresh] issues boundary calls, a refresh ends with the rejection of
    the boundary call that is rejected, be it the candidate query or, after
    an answer with exactly one candidate, either call of
    [setKeyStoreCoinType]; the store is then as before the refresh but for
    [isInitializing] of the resolver, which stays at the [true] it was set
    to before the query: [_isKeyStoreCoinTypeSet] and [_selectables] are as
    they were. *)
Theorem refresh_rejected (chainId : string) (w : World Env) (e : Error)
  (self : KeyRingSelectablesStore) :
  keyRingType (store w) = "mnemonic" ->
  Map_get (selectablesMap (store w)) chainId = Some self ->
  (exists env1,
     sendMessage _ BACKGROUND_PORT (candidatesMsg chainId) (env w)
       = (inl e, env1)) \/
  (exists only env1 env2,
     sendMessage _ BACKGROUND_PORT (candidatesMsg chainId) (env w)
       = (inr [only], env1) /\
     sendMessage _ BACKGROUND_PORT
       (SetKeyStoreCoinTypeMsg chainId (coinType (path only))) env1
       = (inl e, env2)) \/
  (exists only env1 status env2 env3,
     sendMessage _ BACKGROUND_PORT (candidatesMsg chainId) (env w)
       = (inr [only], env1) /\
     sendMessage _ BACKGROUND_PORT
       (SetKeyStoreCoinTypeMsg chainId (coinType (path only))) env1
       = (inr status, env2) /\
     sendMessage _ BACKGROUND_PORT GetMultiKeyStoreInfoMsg env2
       = (inl e, env3)) ->
  exists w',
    refresh chainId w = (inl e, w') /\
    store w' =
      set_selectablesMap
        (Map_alter (set_isInitializing true) chainId
           (selectablesMap (store w))) (store w) /\
    Map_get (selectablesMap (store w')) chainId =
      Some {| isInitializing := true;
              _isKeyStoreCoinTypeSet := _isKeyStoreCoinTypeSet self;
              _selectables := _selectables self |}.
Proof.
  intros Hk Hself Hcall.
  assert (Hfields : Map_get
            (Map_alter (set_isInitializing true) chainId
               (selectablesMap (store w))) chainId =
          Some (set_isInitializing true self)).
  { rewrite Map_get_alter_same, Hself. reflexivity. }
  rewrite (refresh_mnemonic_enter _ _ _ Hk Hself).
  destruct Hcall as [(env1 & H1)
                    |[(only & env1 & env2 & H1 & H2)
                     |(only & env1 & status & env2 & env3 & H1 & H2 & H3)]].
  - rejected H1. eexists. split; [reflexivity|]. simpl. auto.
  - fulfilled H1. unfold refresh_resume, setKeyStoreCoinType.
    unfold bind at 1 2. rejected H2.
    eexists. split; [reflexivity|]. simpl. auto.
  - fulfilled H1. unfold refresh_resume, setKeyStoreCoinType.
    unfold bind at 1 2. fulfilled H2. rejected H3.
    eexists. split; [reflexivity|]. simpl. auto.
Qed.


(** ** Commands and the resolvers *)

Lemma forEach_refresh_resolved (w w' : World Env) (r : Settled unit) :
  forEach_refresh w = (r, w') -> resolved_unless_mnemonic (store w').
Proof.
  intros H. destruct (forEach_refresh_spec w) as (_ & Hs & _).
  rewrite H in Hs. simpl in Hs. rewrite Hs. intros Hk. simpl in *.
  apply Forall_forall. intros entry Hin.
  apply in_map_iff in Hin. destruct Hin as (entry0 & <- & _). simpl.
  unfold entered. apply String.eqb_neq in Hk. rewrite Hk. split; reflexivity.
Qed.

Lemma forEach_refresh_entered (w w' : World Env) (r : Settled unit) :
  forEach_refresh w = (r, w') ->
  same_mirror w w' /\
  selectablesMap (store w') =
    map (fun entry => (fst entry, entered (keyRingType (store w')) (snd entry)))
      (selectablesMap (store w)).
Proof.
  intros H. destruct (forEach_refresh_spec w) as (_ & Hs & _).
  rewrite H in Hs. simpl in Hs. unfold same_mirror. rewrite Hs. simpl.
  repeat split.
Qed.

Lemma entered_resolved (keyRingType : string)
  (m : list (string * KeyRingSelectablesStore)) :
  Forall (fun entry => is_resolved (snd entry)) m ->
  Forall (fun entry => is_resolved (snd entry))
    (map (fun entry => (fst entry, entered keyRingType (snd entry))) m).
Proof.
  intros H. apply Forall_map.
  apply (Forall_impl _ (P := fun entry => is_resolved (snd entry)));
    [|exact H].
  intros [k v] Hv. unfold is_resolved, entered in *. simpl in *.
  destruct (String.eqb keyRingType "mnemonic"); simpl; auto.
Qed.

(** Where a command refreshes the resolvers: either it refreshes none, or
    it is fulfilled and is the refresh of all resolvers run from a world in
    which none was refreshed yet. *)
Lemma run_refresh_point (c : Command) (w w' : World Env) (r : Settled unit) :
  run c w = (r, w') ->
  (no_refresh w w' /\
   (refreshes_resolvers c = false \/ exists e, r = inl e) /\
   (assigns_keyRingType c = false ->
    keyRingType (store w') = keyRingType (store w)))
  \/
  (refreshes_resolvers c = true /\ r = inr tt /\
   exists w1, no_refresh w w1 /\ forEach_refresh w1 = (inr tt, w')).
Proof.
  intros Hrun. unfold no_refresh.
  destruct c as [mnemonic password meta path|privateKey password meta
                |password meta path|mnemonic meta path|privateKey meta
                |meta path|idx| |password|idx password|idx password
                |chainId coin];
    simpl in Hrun.
  1-6, 8, 10, 11:
    left; flows; repeat (reply; done); repeat split; eauto; discriminate.
  - destruct (sendMessage _ BACKGROUND_PORT (ChangeKeyRingMsg idx) (env w))
      as [[e|info] env1] eqn:H1.
    { unfold changeKeyRing, bind, await_sendMessage in Hrun.
      rewrite H1 in Hrun. done. left. repeat split; eauto; discriminate. }
    destruct (sendMessage _ BACKGROUND_PORT GetKeyRingTypeMsg env1)
      as [[e|type] env2] eqn:H2.
    { unfold changeKeyRing, bind, await_sendMessage, assign in Hrun.
      rewrite H1 in Hrun. simpl in Hrun. rewrite H2 in Hrun.
      done. left. repeat split; eauto; discriminate. }
    rewrite (changeKeyRing_fulfilled _ _ _ _ _ _ H1 H2) in Hrun.
    right. split; [reflexivity|].
    match type of Hrun with
    | forEach_refresh ?w1 = _ =>
        pose proof (proj1 (forEach_refresh_spec w1)) as Hr;
        rewrite Hrun in Hr; simpl in Hr; subst r;
        split; [reflexivity|]; exists w1
    end.
    split; [simpl; auto|exact Hrun].
  - left. unfold unlock, bind, await_sendMessage, assign, dispatchEvent, record
      in Hrun.
    reply; [done; repeat split; eauto|].
    match type of Hrun with
    | context [approve_each ?l ?w0] =>
        destruct (approve_each l w0) as [[err|[]] w1] eqn:Happ;
        apply approve_each_events in Happ; destruct Happ as (Hs & Hp & _)
    end; done; rewrite Hs, Hp; repeat split; eauto.
  - destruct (sendMessage _ BACKGROUND_PORT
                (SetKeyStoreCoinTypeMsg chainId coin) (env w))
      as [[e|status] env1] eqn:H1.
    { unfold setKeyStoreCoinType, bind, await_sendMessage in Hrun.
      rewrite H1 in Hrun. done. left. repeat split; eauto. }
    destruct (sendMessage _ BACKGROUND_PORT GetMultiKeyStoreInfoMsg env1)
      as [[e|info] env2] eqn:H2.
    { unfold setKeyStoreCoinType, bind, await_sendMessage in Hrun.
      rewrite H1 in Hrun. simpl in Hrun. rewrite H2 in Hrun.
      done. left. repeat split; eauto. }
    rewrite (setKeyStoreCoinType_fulfilled _ _ _ _ _ _ _ H1 H2) in Hrun.
    right. split; [reflexivity|].
    match type of Hrun with
    | forEach_refresh ?w1 = _ =>
        pose proof (proj1 (forEach_refresh_spec w1)) as Hr;
        rewrite Hrun in Hr; simpl in Hr; subst r;
        split; [reflexivity|]; exists w1
    end.
    split; [simpl; auto|exact Hrun].
Qed.

(** C3, as amended: a fulfilled [changeKeyRing] or [setKeyStoreCoinType]
    ends with every registered resolver resolved and without candidates if
    the key ring type is then not "mnemonic"; and a command keeps that
    property of the store, whatever its outcome, if it has no assignment to
    [keyRingType] (the add-key variants, lock, unlock, showKeyRing,
    setKeyStoreCoinType) or if the key ring type before it is not
    "mnemonic". *)
Theorem resolved_after_command (c : Command) (w w' : World Env)
  (r : Settled unit) :
  run c w = (r, w') ->
  (refreshes_resolvers c = true /\ r = inr tt) \/
  (assigns_keyRingType c = false /\ resolved_unless_mnemonic (store w)) \/
  (keyRingType (store w) <> "mnemonic" /\ resolved_unless_mnemonic (store w)) ->
  resolved_unless_mnemonic (store w').
Proof.
  intros Hrun H.
  destruct (run_refresh_point _ _ _ _ Hrun)
    as [([Hmap _] & Hno & Hkind)|(_ & _ & w1 & _ & Hall)];
    [|exact (forEach_refresh_resolved _ _ _ Hall)].
  unfold resolved_unless_mnemonic in *. rewrite Hmap.
  destruct H as [[Hc ->]|[[Hc Hinv]|[Hk Hinv]]].
  - destruct Hno as [Hno|[e He]]; congruence.
  - rewrite (Hkind Hc). exact Hinv.
  - intros _. exact (Hinv Hk).
Qed.

(** C9: in [changeKeyRing] and [setKeyStoreCoinType], once both boundary
    calls are answered, the answers are assigned ([multiKeyStoreInfo] and
    [keyRingType], resp. [multiKeyStoreInfo] and [status]) and the signal is
    dispatched in a world in which no resolver was refreshed yet, and the
    command is the refresh of all resolvers run from that world: the
    assigned values are final and every resolver enters its refresh under
    the key ring type of that world.  [deleteKeyRing] assigns the answers
    of its two calls and triggers no refresh, and a rejected run of any of
    the three triggers none either. *)
Theorem write_back_precedes_refresh (w : World Env) :
  (forall index info env1 type env2,
     sendMessage _ BACKGROUND_PORT (ChangeKeyRingMsg index) (env w)
       = (inr info, env1) ->
     sendMessage _ BACKGROUND_PORT GetKeyRingTypeMsg env1
       = (inr type, env2) ->
     exists w1 w',
       store w1 = set_keyRingType type (set_multiKeyStoreInfo info (store w)) /\
       suspended w1 = suspended w /\
       changeKeyRing index w = forEach_refresh w1 /\
       changeKeyRing index w = (inr tt, w') /\
       multiKeyStoreInfo (store w') = info /\
       keyRingType (store w') = type /\
       selectablesMap (store w') =
         map (fun entry => (fst entry, entered type (snd entry)))
           (selectablesMap (store w))) /\
  (forall chainId coin answer env1 info env2,
     sendMessage _ BACKGROUND_PORT (SetKeyStoreCoinTypeMsg chainId coin)
       (env w) = (inr answer, env1) ->
     sendMessage _ BACKGROUND_PORT GetMultiKeyStoreInfoMsg env1
       = (inr info, env2) ->
     exists w1 w',
       store w1 = set_status answer (set_multiKeyStoreInfo info (store w)) /\
       suspended w1 = suspended w /\
       setKeyStoreCoinType chainId coin w = forEach_refresh w1 /\
       setKeyStoreCoinType chainId coin w = (inr tt, w') /\
       multiKeyStoreInfo (store w') = info /\
       status (store w') = answer /\
       selectablesMap (store w') =
         map (fun entry =>
                (fst entry, entered (keyRingType (store w)) (snd entry)))
           (selectablesMap (store w))) /\
  (forall index password result env1 type env2,
     sendMessage _ BACKGROUND_PORT (DeleteKeyRingMsg index password) (env w)
       = (inr result, env1) ->
     sendMessage _ BACKGROUND_PORT GetKeyRingTypeMsg env1
       = (inr type, env2) ->
     deleteKeyRing index password w =
     (inr tt,
      {| store :=
           set_keyRingType type
             (set_multiKeyStoreInfo (delete_multiKeyStoreInfo result)
                (set_status (delete_status result) (store w)));
         env := env2; suspended := suspended w;
         events := events w ++
                   [Sent BACKGROUND_PORT (DeleteKeyRingMsg index password);
                    Sent BACKGROUND_PORT GetKeyRingTypeMsg] |})) /\
  (forall c e w',
     ordered c = true -> run c w = (inl e, w') -> no_refresh w w').
Proof.
  split; [|split; [|split]].
  - intros index info env1 type env2 H1 H2.
    rewrite (changeKeyRing_fulfilled _ _ _ _ _ _ H1 H2).
    match goal with
    | |- context [forEach_refresh ?w1] =>
        destruct (forEach_refresh w1) as [r w'] eqn:Hall;
        pose proof (proj1 (forEach_refresh_spec w1)) as Hr;
        rewrite Hall in Hr; simpl in Hr; subst r;
        destruct (forEach_refresh_entered _ _ _ Hall)
          as [(Hs & Hk & Hi) Hmap];
        exists w1, w'
    end.
    simpl in Hs, Hk, Hi, Hmap. rewrite Hk in Hmap. repeat split; auto.
  - intros chainId coin answer env1 info env2 H1 H2.
    rewrite (setKeyStoreCoinType_fulfilled _ _ _ _ _ _ _ H1 H2).
    match goal with
    | |- context [forEach_refresh ?w1] =>
        destruct (forEach_refresh w1) as [r w'] eqn:Hall;
        pose proof (proj1 (forEach_refresh_spec w1)) as Hr;
        rewrite Hall in Hr; simpl in Hr; subst r;
        destruct (forEach_refresh_entered _ _ _ Hall)
          as [(Hs & Hk & Hi) Hmap];
        exists w1, w'
    end.
    simpl in Hs, Hk, Hi, Hmap. rewrite Hk in Hmap. repeat split; auto.
  - intros index password result env1 type env2 H1 H2.
    unfold deleteKeyRing. fulfilled H1. repeat assigned.
    fulfilled H2. unfold assign. simpl. rewrite <- app_assoc. reflexivity.
  - intros c e w' _ Hrun.
    destruct (run_refresh_point _ _ _ _ Hrun)
      as [(Hno & _)|(_ & Hr & _)]; [exact Hno|discriminate Hr].
Qed.

(** ** The registry of resolvers

    The association list is a [Map]: no step of the system gives a chain a
    second entry, so a write to the resolver of a chain is a write to one
    object. *)

Create HintDb registry.

Lemma keeps_ret {A : Type} (a : A) : keeps_registry (ret (W := World Env) a).
Proof. intros w. reflexivity. Qed.

Lemma keeps_bind {A B : Type} (m : flow (World Env) A)
  (k : A -> flow (World Env) B) :
  keeps_registry m -> (forall a, keeps_registry (k a)) ->
  keeps_registry (bind m k).
Proof.
  intros Hm Hk w. unfold bind. specialize (Hm w).
  destruct (m w) as [[e|a] w1]; simpl in *; [exact Hm|].
  rewrite Hk. exact Hm.
Qed.

Lemma keeps_assign (f : KeyRingStore -> KeyRingStore) :
  (forall this, map fst (selectablesMap (f this)) = map fst (selectablesMap this)) ->
  keeps_registry (assign (Env := Env) f).
Proof. intros H w. unfold registry, assign. simpl. apply H. Qed.

Lemma keeps_assign_self (chainId : string)
  (f : KeyRingSelectablesStore -> KeyRingSelectablesStore) :
  keeps_registry (assign_self (Env := Env) chainId f).
Proof. apply keeps_assign. intros this. simpl. apply Map_alter_keys. Qed.

Lemma keeps_await_sendMessage {A : Type} (msg : Msg A) :
  keeps_registry (await_sendMessage msg).
Proof.
  intros w. unfold await_sendMessage.
  destruct (sendMessage A BACKGROUND_PORT msg (env w)). reflexivity.
Qed.

Lemma keeps_await_approve (type id0 : string) (result : Payload) :
  keeps_registry (await_approve type id0 result).
Proof.
  intros w. unfold await_approve.
  destruct (approve type id0 result (env w)). reflexivity.
Qed.

Lemma keeps_dispatchEvent (name : string) :
  keeps_registry (dispatchEvent (Env := Env) name).
Proof. intros w. reflexivity. Qed.

Lemma keeps_forEach_refresh : keeps_registry forEach_refresh.
Proof.
  intros w. destruct (forEach_refresh_spec w) as (_ & Hs & _).
  unfold registry. rewrite Hs. simpl. rewrite map_map. reflexivity.
Qed.

#[local] Hint Resolve keeps_ret keeps_assign_self keeps_await_sendMessage
  keeps_await_approve keeps_dispatchEvent keeps_forEach_refresh : registry.

Ltac registry :=
  repeat first
    [ apply keeps_bind; [|intros ?]
    | apply keeps_assign; intros ?; reflexivity
    | solve [auto with registry] ].

Lemma keeps_approve_each (datas : list InteractionWaitingData) :
  keeps_registry (approve_each datas).
Proof. induction datas as [|d datas IH]; simpl; registry. Qed.

Lemma keeps_setKeyStoreCoinType (chainId : string) (coinType : Z) :
  keeps_registry (setKeyStoreCoinType chainId coinType).
Proof. unfold setKeyStoreCoinType. registry. Qed.

#[local] Hint Resolve keeps_approve_each keeps_setKeyStoreCoinType : registry.

Lemma keeps_refresh_resume (chainId : string) (seletables : list Selectable) :
  keeps_registry (refresh_resume chainId seletables).
Proof.
  unfold refresh_resume.
  destruct seletables as [|only [|second rest]]; registry.
Qed.

Lemma keeps_restore_resume (result : RestoreResult) :
  keeps_registry (restore_resume (Env := Env) result).
Proof. unfold restore_resume. registry. Qed.

#[local] Hint Resolve keeps_refresh_resume keeps_restore_resume : registry.

Lemma keeps_run (c : Command) : keeps_registry (run c).
Proof.
  destruct c; simpl;
    unfold createMnemonicKey, createPrivateKey, createLedgerKey,
      addMnemonicKey, addPrivateKey, addLedgerKey, changeKeyRing, lock,
      unlock, showKeyRing, deleteKeyRing;
    registry.
  intros w. apply keeps_approve_each.
Qed.

Lemma refresh_enter_registry (chainId : string) (w : World Env) :
  registry (fst (refresh_enter chainId w)) = registry w.
Proof.
  unfold refresh_enter.
  destruct (Map_get (selectablesMap (store w)) chainId); [|reflexivity].
  unfold registry. simpl. apply Map_alter_keys.
Qed.

Lemma keeps_refresh (chainId : string) : keeps_registry (refresh chainId).
Proof.
  intros w. unfold refresh. pose proof (refresh_enter_registry chainId w) as H.
  destruct (refresh_enter chainId w) as [w1 [msg|]]; simpl in H; [|exact H].
  rewrite <- H.
  apply keeps_bind; [apply keeps_await_sendMessage|apply keeps_refresh_resume].
Qed.

Lemma keeps_settle (n : nat) : keeps_registry (settle n).
Proof.
  intros w. unfold settle.
  destruct (nth_error (suspended w) n) as [[[e|result]|chainId [e|l]]|];
    try reflexivity.
  exact (keeps_refresh_resume chainId l _).
Qed.

Lemma Map_set_new {V : Type} (m : list (string * V)) (key : string) (v : V) :
  Map_get m key = None -> map fst (Map_set m key v) = map fst m ++ [key].
Proof.
  induction m as [|[k v0] m IH]; simpl; [reflexivity|].
  destruct (String.eqb k key); [discriminate|].
  intros H. simpl. rewrite (IH H). reflexivity.
Qed.

Lemma Map_get_absent {V : Type} (m : list (string * V)) (key : string) :
  Map_get m key = None -> ~ In key (map fst m).
Proof.
  intros H Hin. destruct (Map_get_key m key Hin) as [v Hv]. congruence.
Qed.

(** [getKeyStoreSelectables] registers a chain that has no resolver and
    leaves the registry alone otherwise. *)
Lemma getKeyStoreSelectables_registry (chainId : string) (w : World Env) :
  registry (snd (getKeyStoreSelectables chainId w)) =
  if Map_has (selectablesMap (store w)) chainId then registry w
  else registry w ++ [chainId].
Proof.
  unfold getKeyStoreSelectables, Map_has, new_KeyRingSelectablesStore. simpl.
  destruct (Map_get (selectablesMap (store w)) chainId) eqn:Hget; simpl;
    [reflexivity|].
  destruct (refresh_begin chainId (keyRingType (store w))
              KeyRingSelectablesStore_fields) as [self [msg|]];
    unfold registry, post; simpl.
  - destruct (sendMessage _ BACKGROUND_PORT msg (env w)). simpl.
    apply Map_set_new. exact Hget.
  - apply Map_set_new. exact Hget.
Qed.

(** In every world the system can be in, each chain has at most one
    resolver. *)
Lemma reachable_registry_NoDup (w : World Env) :
  reachable w -> NoDup (registry w).
Proof.
  induction 1 as [env0|s w Hw IH].
  - unfold new_KeyRingStore, post, registry. simpl.
    destruct (sendMessage _ BACKGROUND_PORT RestoreKeyRingMsg env0).
    simpl. constructor.
  - destruct s as [c|chainId|chainId|n]; unfold step.
    + rewrite keeps_run. exact IH.
    + rewrite getKeyStoreSelectables_registry. unfold Map_has.
      destruct (Map_get (selectablesMap (store w)) chainId) eqn:Hget;
        [exact IH|].
      apply NoDup_app; [exact IH|repeat constructor; simpl; tauto|].
      intros x Hx [<-|[]]. exact (Map_get_absent _ _ Hget Hx).
    + rewrite keeps_refresh. exact IH.
    + rewrite keeps_settle. exact IH.
Qed.

(** ** Asking for a resolver *)

Lemma Map_get_set_same {V : Type} (m : list (string * V)) (key : string)
  (v : V) :
  Map_get (Map_set m key v) key = Some v.
Proof.
  induction m as [|[k v0] m IH]; simpl.
  - rewrite String.eqb_refl. reflexivity.
  - destruct (String.eqb k key) eqn:E; simpl; rewrite E; [reflexivity|exact IH].
Qed.

Lemma Map_set_absent {V : Type} (m : list (string * V)) (key : string)
  (v : V) :
  Map_get m key = None -> Map_set m key v = m ++ [(key, v)].
Proof.
  induction m as [|[k v0] m IH]; simpl; [reflexivity|].
  destruct (String.eqb k key); [discriminate|].
  intros H. rewrite (IH H). reflexivity.
Qed.

(** X1: [getKeyStoreSelectables] always returns a resolver, and asking
    again for the same chain returns the same resolver and changes nothing:
    no second resolver, no second refresh, no message. *)
Theorem getKeyStoreSelectables_again (chainId : string) (w : World Env) :
  exists self,
    fst (getKeyStoreSelectables chainId w) = Some self /\
    getKeyStoreSelectables chainId (snd (getKeyStoreSelectables chainId w))
      = (Some self, snd (getKeyStoreSelectables chainId w)).
Proof.
  assert (Hhas : exists self,
            Map_get (selectablesMap
                       (store (snd (getKeyStoreSelectables chainId w))))
              chainId = Some self).
  { unfold getKeyStoreSelectables, Map_has. simpl.
    destruct (Map_get (selectablesMap (store w)) chainId) eqn:Hget; simpl;
      [eauto|].
    destruct (new_KeyRingSelectablesStore chainId w) as [self w1]. simpl.
    rewrite Map_get_set_same. eauto. }
  destruct Hhas as [self Hself]. exists self.
  split; [exact Hself|].
  revert Hself. generalize (snd (getKeyStoreSelectables chainId w)).
  intros w1 Hself. unfold getKeyStoreSelectables, Map_has.
  rewrite Hself. simpl. rewrite Hself. reflexivity.
Qed.

(** X2: for a chain without a resolver, [getKeyStoreSelectables] appends
    one to the map, leaves the other resolvers and the mirrored fields
    alone, and returns it as its refresh has left it: resolved without any
    message under a key ring that is not of a mnemonic, initializing with
    its candidate query on the way under a mnemonic; either way it does not
    ask for a selection. *)
Theorem getKeyStoreSelectables_new (chainId : string) (w : World Env) :
  Map_get (selectablesMap (store w)) chainId = None ->
  exists w',
    getKeyStoreSelectables chainId w =
      (Some (entered (keyRingType (store w)) KeyRingSelectablesStore_fields),
       w') /\
    selectablesMap (store w') =
      selectablesMap (store w) ++
      [(chainId, entered (keyRingType (store w)) KeyRingSelectablesStore_fields)]
    /\
    same_mirror w w' /\
    events w' =
      events w ++
      (if String.eqb (keyRingType (store w)) "mnemonic"
       then [Sent BACKGROUND_PORT (candidatesMsg chainId)] else []) /\
    length (suspended w') =
      (length (suspended w) +
       (if String.eqb (keyRingType (store w)) "mnemonic" then 1 else 0))%nat /\
    needSelectCoinType chainId
      (entered (keyRingType (store w)) KeyRingSelectablesStore_fields) = false.
Proof.
  intros Hget.
  unfold getKeyStoreSelectables, Map_has, new_KeyRingSelectablesStore.
  rewrite Hget. simpl. rewrite refresh_begin_entered.
  assert (Hneed : needSelectCoinType chainId
            (entered (keyRingType (store w)) KeyRingSelectablesStore_fields)
          = false).
  { unfold needSelectCoinType, entered.
    destruct (alternativeBIP44s (getChain chainId)) as [[|b l]|];
      try reflexivity.
    destruct (String.eqb (keyRingType (store w)) "mnemonic"); reflexivity. }
  unfold same_mirror.
  destruct (String.eqb (keyRingType (store w)) "mnemonic") eqn:Hk.
  - unfold post.
    destruct (sendMessage _ BACKGROUND_PORT (candidatesMsg chainId) (env w))
      as [reply env1].
    simpl. rewrite Map_get_set_same, (Map_set_absent _ _ _ Hget).
    eexists. split; [reflexivity|]. simpl.
    rewrite length_app. simpl. repeat split; auto.
  - simpl. rewrite Map_get_set_same, (Map_set_absent _ _ _ Hget).
    eexists. split; [reflexivity|]. simpl.
    rewrite app_nil_r, Nat.add_0_r. repeat split; auto.
Qed.

(** X3: no step of the system removes a resolver or moves one: the
    registry after a step is the registry before it, followed by at most
    what the step has registered. *)
Theorem registry_grows (s : Step) (w : World Env) :
  exists new, registry (step s w) = registry w ++ new.
Proof.
  destruct s as [c|chainId|chainId|n]; unfold step.
  - exists []. rewrite keeps_run, app_nil_r. reflexivity.
  - rewrite getKeyStoreSelectables_registry.
    destruct (Map_has (selectablesMap (store w)) chainId).
    + exists []. rewrite app_nil_r. reflexivity.
    + eauto.
  - exists []. rewrite keeps_refresh, app_nil_r. reflexivity.
  - exists []. rewrite keeps_settle, app_nil_r. reflexivity.
Qed.

(** ** The restore of the constructor *)

(** X4: the constructor sends [RestoreKeyRingMsg] and nothing else, with
    the fields at their defaults; when the reply arrives, [status],
    [keyRingType] and [multiKeyStoreInfo] are those of the reply, and when
    the restore is rejected the store stays at [NOTLOADED], "none" and an
    empty inventory. *)
Theorem restore_settled (env0 : Env) :
  store (new_KeyRingStore env0) = KeyRingStore_fields /\
  events (new_KeyRingStore env0) = [Sent BACKGROUND_PORT RestoreKeyRingMsg] /\
  settle 0 (new_KeyRingStore env0) =
    (match fst (sendMessage _ BACKGROUND_PORT RestoreKeyRingMsg env0) with
     | inl e => inl e
     | inr _ => inr tt
     end,
     {| store :=
          match fst (sendMessage _ BACKGROUND_PORT RestoreKeyRingMsg env0) with
          | inl _ => KeyRingStore_fields
          | inr result =>
              {| status := restore_status result;
                 keyRingType := restore_type result;
                 multiKeyStoreInfo := restore_multiKeyStoreInfo result;
                 selectablesMap := [] |}
          end;
        env := snd (sendMessage _ BACKGROUND_PORT RestoreKeyRingMsg env0);
        suspended := [];
        events := [Sent BACKGROUND_PORT RestoreKeyRingMsg] |}).
Proof.
  unfold new_KeyRingStore, post. cbn [env].
  destruct (sendMessage _ BACKGROUND_PORT RestoreKeyRingMsg env0)
    as [[e|result] env1]; unfold settle; simpl; auto.
Qed.

(** ** Replies to flows in flight *)

(** X5: the reply to the candidate query of a refresh in flight is applied
    without a second look at [keyRingType]: no candidate marks the resolver
    resolved and keeps the candidates it had, two or more are stored and
    mark it unresolved, whatever the key ring type has become since the
    query left; nothing is sent and the mirrored fields are untouched. *)
Theorem late_candidates_applied (n : nat) (w : World Env) (chainId : string)
  (seletables : list Selectable) (self : KeyRingSelectablesStore) :
  nth_error (suspended w) n
    = Some (AwaitSelectables chainId (inr seletables)) ->
  Map_get (selectablesMap (store w)) chainId = Some self ->
  length seletables <> 1%nat ->
  exists w',
    settle n w = (inr tt, w') /\
    Map_get (selectablesMap (store w')) chainId =
      Some (match seletables with
            | [] => {| isInitializing := false;
                       _isKeyStoreCoinTypeSet := true;
                       _selectables := _selectables self |}
            | _ => {| isInitializing := false;
                      _isKeyStoreCoinTypeSet := false;
                      _selectables := seletables |}
            end) /\
    same_mirror w w' /\ events w' = events w /\ env w' = env w.
Proof.
  intros Hnth Hself Hlen. unfold settle. rewrite Hnth.
  unfold refresh_resume, same_mirror.
  destruct seletables as [|only [|second rest]]; [|simpl in Hlen; lia|];
    flows; simpl; eexists; (split; [reflexivity|]); simpl;
    rewrite !Map_get_alter_same, Hself; repeat split; reflexivity.
Qed.

Lemma refresh_enter_suspended (chainId : string) (w : World Env) :
  suspended (fst (refresh_enter chainId w)) = suspended w.
Proof.
  unfold refresh_enter.
  destruct (Map_get (selectablesMap (store w)) chainId); reflexivity.
Qed.

(** ** What a command sends, dispatches and assigns *)

Lemma approvals_no_dispatch (datas : list InteractionWaitingData) :
  filter is_dispatch (approvals_of datas) = [].
Proof. induction datas as [|d l IH]; simpl; auto. Qed.

Lemma refresh_events_no_dispatch (this : KeyRingStore) :
  filter is_dispatch (refresh_events this) = [].
Proof.
  unfold refresh_events. destruct (String.eqb _ _); [|reflexivity].
  induction (map fst (selectablesMap this)) as [|c l IH]; simpl; auto.
Qed.

(** The refresh of all resolvers: its outcome, its events, and what it
    keeps. *)
Lemma forEach_refresh_run (w w' : World Env) (r : Settled unit) :
  forEach_refresh w = (r, w') ->
  r = inr tt /\
  events w' = events w ++ refresh_events (store w') /\
  same_mirror w w'.
Proof.
  intros H. destruct (forEach_refresh_spec w) as (Hr & Hs & He & _).
  rewrite H in Hr, Hs, He. simpl in Hr, Hs, He.
  split; [exact Hr|]. split; [|exact (proj1 (forEach_refresh_entered _ _ _ H))].
  rewrite He. f_equal. unfold refresh_events. rewrite Hs. simpl.
  rewrite map_map. reflexivity.
Qed.

Ltac shape :=
  repeat rewrite <- app_assoc; simpl; eexists;
  (split; [reflexivity|]); repeat split; intros;
  try discriminate; try reflexivity.

(** Every run of a command at once: the events it adds, the window events
    among them, the mirrored fields it keeps, and, for a fulfilled command
    other than [unlock], the events in full. *)
Lemma run_shape (c : Command) (w w' : World Env) (r : Settled unit) :
  run c w = (r, w') ->
  exists news,
    events w' = events w ++ news /\
    filter is_dispatch news =
      match r with inr _ => signals c | inl _ => [] end /\
    (assigns_status c = false -> status (store w') = status (store w)) /\
    (assigns_multiKeyStoreInfo c = false ->
     multiKeyStoreInfo (store w') = multiKeyStoreInfo (store w)) /\
    (assigns_keyRingType c = false ->
     keyRingType (store w') = keyRingType (store w)) /\
    (r = inr tt -> is_unlock c = false ->
     news =
       Sent BACKGROUND_PORT (projT2 (first_message c))
       :: second_message c ++ signals c ++
          (if refreshes_resolvers c then refresh_events (store w') else [])).
Proof.
  intros Hrun.
  destruct c as [mnemonic password meta path|privateKey password meta
                |password meta path|mnemonic meta path|privateKey meta
                |meta path|idx| |password|idx password|idx password
                |chainId coin];
    simpl in Hrun.
  1-6, 8, 10, 11: flows; repeat (reply; done); shape.
  - destruct (sendMessage _ BACKGROUND_PORT (ChangeKeyRingMsg idx) (env w))
      as [[e|info] env1] eqn:H1.
    { unfold changeKeyRing, bind, await_sendMessage in Hrun.
      rewrite H1 in Hrun. done. shape. }
    destruct (sendMessage _ BACKGROUND_PORT GetKeyRingTypeMsg env1)
      as [[e|type] env2] eqn:H2.
    { unfold changeKeyRing, bind, await_sendMessage, assign in Hrun.
      rewrite H1 in Hrun. simpl in Hrun. rewrite H2 in Hrun. done. shape. }
    rewrite (changeKeyRing_fulfilled _ _ _ _ _ _ H1 H2) in Hrun.
    destruct (forEach_refresh_run _ _ _ Hrun) as (-> & He & Hm & Hk & Hi).
    simpl in He, Hm, Hk, Hi. rewrite He.
    repeat rewrite <- app_assoc. simpl. eexists. split; [reflexivity|].
    simpl. rewrite refresh_events_no_dispatch.
    repeat split; intros; try discriminate; auto.
  - unfold unlock, bind, await_sendMessage, assign, dispatchEvent, record
      in Hrun.
    reply; [done; shape|].
    match type of Hrun with
    | context [approve_each ?l ?w0] =>
        destruct (approve_each l w0) as [[err|[]] w1] eqn:Happ;
        apply approve_each_events in Happ;
        destruct Happ as (Hs & _ & n & He & _)
    end; done; rewrite He; repeat rewrite <- app_assoc; simpl; eexists;
      (split; [reflexivity|]); simpl;
      rewrite ?filter_app, ?approvals_no_dispatch; simpl; rewrite ?Hs;
      repeat split; intros; try discriminate; reflexivity.
  - destruct (sendMessage _ BACKGROUND_PORT
                (SetKeyStoreCoinTypeMsg chainId coin) (env w))
      as [[e|status] env1] eqn:H1.
    { unfold setKeyStoreCoinType, bind, await_sendMessage in Hrun.
      rewrite H1 in Hrun. done. shape. }
    destruct (sendMessage _ BACKGROUND_PORT GetMultiKeyStoreInfoMsg env1)
      as [[e|info] env2] eqn:H2.
    { unfold setKeyStoreCoinType, bind, await_sendMessage in Hrun.
      rewrite H1 in Hrun. simpl in Hrun. rewrite H2 in Hrun. done. shape. }
    rewrite (setKeyStoreCoinType_fulfilled _ _ _ _ _ _ _ H1 H2) in Hrun.
    destruct (forEach_refresh_run _ _ _ Hrun) as (-> & He & Hm & Hk & Hi).
    simpl in He, Hm, Hk, Hi. rewrite He.
    repeat rewrite <- app_assoc. simpl. eexists. split; [reflexivity|].
    simpl. rewrite refresh_events_no_dispatch.
    repeat split; intros; try discriminate; auto.
Qed.

(** X7: a command dispatches a window event only when it is fulfilled:
    [changeKeyRing] and [setKeyStoreCoinType] then dispatch
    "keplr_keystorechange" once, [unlock] dispatches "keplr_keystoreunlock"
    once, and no other command, and no rejected command, dispatches
    anything; the create-key, add-key and delete commands change the key
    ring without a "keplr_keystorechange". *)
Theorem command_signals (c : Command) (w : World Env) :
  exists news,
    events (snd (run c w)) = events w ++ news /\
    filter is_dispatch news =
      match fst (run c w) with inr _ => signals c | inl _ => [] end.
Proof.
  destruct (run c w) as [r w'] eqn:Hrun.
  destruct (run_shape _ _ _ _ Hrun) as (news & He & Hd & _).
  exists news. simpl. auto.
Qed.

(** X8: whatever its outcome, a command leaves [status] as it was unless
    it is a create-key command, lock, unlock, deleteKeyRing or
    setKeyStoreCoinType; leaves [multiKeyStoreInfo] as it was unless it is
    an add-key command, changeKeyRing, deleteKeyRing or
    setKeyStoreCoinType; leaves [keyRingType] as it was unless it is a
    create-key command, changeKeyRing or deleteKeyRing; and touches no
    resolver unless it is changeKeyRing or setKeyStoreCoinType. *)
Theorem command_frame (c : Command) (w w' : World Env) (r : Settled unit) :
  run c w = (r, w') ->
  (assigns_status c = false -> status (store w') = status (store w)) /\
  (assigns_multiKeyStoreInfo c = false ->
   multiKeyStoreInfo (store w') = multiKeyStoreInfo (store w)) /\
  (assigns_keyRingType c = false ->
   keyRingType (store w') = keyRingType (store w)) /\
  (refreshes_resolvers c = false -> no_refresh w w').
Proof.
  intros Hrun.
  destruct (run_shape _ _ _ _ Hrun) as (news & _ & _ & Hs & Hi & Hk & _).
  split; [exact Hs|]. split; [exact Hi|]. split; [exact Hk|].
  destruct (run_refresh_point _ _ _ _ Hrun) as [(Hno & _)|(Hc & _)].
  - intros _. exact Hno.
  - intros Hc'. congruence.
Qed.

(** X9: the events of a fulfilled command other than [unlock], in full
    and in order: its own message, then the query of the key ring type
    (create-key, changeKeyRing, deleteKeyRing) or of the inventory
    (setKeyStoreCoinType) if its code has one, then its window event if it
    has one, then, for changeKeyRing and setKeyStoreCoinType, one candidate
    query per registered resolver in the order of registration if the key
    ring type is then "mnemonic", and none otherwise. *)
Theorem fulfilled_command_events (c : Command) (w w' : World Env) :
  is_unlock c = false ->
  run c w = (inr tt, w') ->
  events w' =
    events w ++
    Sent BACKGROUND_PORT (projT2 (first_message c))
    :: second_message c ++ signals c ++
       (if refreshes_resolvers c then refresh_events (store w') else []).
Proof.
  intros Hc Hrun.
  destruct (run_shape _ _ _ _ Hrun) as (news & He & _ & _ & _ & _ & Hnews).
  rewrite He, (Hnews eq_refl Hc). reflexivity.
Qed.

(** ** When a selection is asked for *)

Lemma needSelectCoinType_true (chainId : string)
  (self : KeyRingSelectablesStore) :
  needSelectCoinType chainId self = true ->
  isInitializing self = false /\ _isKeyStoreCoinTypeSet self = false.
Proof.
  unfold needSelectCoinType.
  destruct (alternativeBIP44s (getChain chainId)) as [[|b l]|];
    try discriminate.
  intros H. apply andb_true_iff in H. destruct H as [H1 H2].
  apply negb_true_iff in H1, H2. auto.
Qed.

(** X10: if [needSelectCoinType] is true for a resolver right after its
    refresh, then the refresh was fulfilled under a mnemonic key ring, and
    the resolver holds at least two candidates, which are the answer of the
    authority to the candidate query as it came.  After a rejected refresh,
    and after a refresh under any other key ring type, it is false. *)
Theorem needSelectCoinType_after_refresh (chainId : string) (w w' : World Env)
  (r : Settled unit) (self self' : KeyRingSelectablesStore) :
  Map_get (selectablesMap (store w)) chainId = Some self ->
  refresh chainId w = (r, w') ->
  Map_get (selectablesMap (store w')) chainId = Some self' ->
  needSelectCoinType chainId self' = true ->
  r = inr tt /\
  keyRingType (store w) = "mnemonic" /\
  (2 <= length (_selectables self'))%nat /\
  fst (sendMessage _ BACKGROUND_PORT (candidatesMsg chainId) (env w))
    = inr (_selectables self').
Proof.
  intros Hself Hrun Hself' Hneed.
  apply needSelectCoinType_true in Hneed. destruct Hneed as [Hinit Hset].
  destruct (String.eqb (keyRingType (store w)) "mnemonic") eqn:Hk.
  - apply String.eqb_eq in Hk.
    rewrite (refresh_mnemonic_enter _ _ _ Hk Hself) in Hrun.
    destruct (sendMessage _ BACKGROUND_PORT (candidatesMsg chainId) (env w))
      as [[e|seletables] env1] eqn:Hsent.
    + exfalso. unfold bind, await_sendMessage in Hrun. simpl in Hrun.
      rewrite Hsent in Hrun. injection Hrun as _ <-. simpl in Hself'.
      rewrite Map_get_alter_same, Hself in Hself'.
      injection Hself' as <-. discriminate Hinit.
    + revert Hrun. fulfilled Hsent. intros Hrun.
      destruct seletables as [|only [|second rest]].
      * exfalso. unfold refresh_resume in Hrun. flows.
        injection Hrun as _ <-. simpl in Hself'.
        rewrite !Map_get_alter_same, Hself in Hself'.
        injection Hself' as <-. discriminate Hset.
      * exfalso. unfold refresh_resume, bind in Hrun.
        match type of Hrun with
        | context [setKeyStoreCoinType ?c ?t ?w1] =>
            destruct (setKeyStoreCoinType c t w1) as [[e|[]] w2] eqn:Hcommit
        end.
        -- injection Hrun as _ <-.
           unfold setKeyStoreCoinType, bind, await_sendMessage in Hcommit.
           simpl in Hcommit.
           destruct (sendMessage _ BACKGROUND_PORT
                       (SetKeyStoreCoinTypeMsg chainId (coinType (path only)))
                       env1) as [[e1|status] env2];
             [injection Hcommit as _ <-|].
           ++ simpl in Hself'.
              rewrite Map_get_alter_same, Hself in Hself'.
              injection Hself' as <-. discriminate Hinit.
           ++ simpl in Hcommit.
              destruct (sendMessage _ BACKGROUND_PORT GetMultiKeyStoreInfoMsg
                          env2) as [[e2|info] env3];
                [injection Hcommit as _ <-|discriminate Hcommit].
              simpl in Hself'.
              rewrite Map_get_alter_same, Hself in Hself'.
              injection Hself' as <-. discriminate Hinit.
        -- unfold assign_self, assign in Hrun. injection Hrun as _ <-.
           simpl in Hself'.
           rewrite !Map_get_alter_same in Hself'.
           destruct (Map_get (selectablesMap (store w2)) chainId);
             [|discriminate Hself'].
           injection Hself' as <-. discriminate Hset.
      * unfold refresh_resume in Hrun. flows.
        injection Hrun as <- <-. simpl in Hself'.
        rewrite !Map_get_alter_same, Hself in Hself'.
        injection Hself' as <-. simpl.
        repeat split; auto. lia.
  - exfalso. unfold refresh in Hrun.
    rewrite (refresh_enter_spec _ _ _ Hself), Hk in Hrun.
    injection Hrun as _ <-. simpl in Hself'.
    rewrite Map_get_alter_same, Hself in Hself'. unfold entered in Hself'.
    rewrite Hk in Hself'. injection Hself' as <-. discriminate Hset.
Qed.

(** X11: a refresh whose candidate query is not answered with exactly one
    candidate touches no resolver but its own and none of the mirrored
    fields, whether it is fulfilled or rejected. *)
Theorem refresh_frame (chainId : string) (w w' : World Env)
  (r : Settled unit) :
  refresh chainId w = (r, w') ->
  (forall only,
     fst (sendMessage _ BACKGROUND_PORT (candidatesMsg chainId) (env w))
       <> inr [only]) ->
  same_mirror w w' /\
  forall other, other <> chainId ->
    Map_get (selectablesMap (store w')) other
      = Map_get (selectablesMap (store w)) other.
Proof.
  intros Hrun Hnot. unfold same_mirror, refresh, refresh_enter in Hrun |- *.
  destruct (Map_get (selectablesMap (store w)) chainId) as [self|];
    [|injection Hrun as _ <-; auto].
  rewrite refresh_begin_entered in Hrun. simpl in Hrun.
  destruct (String.eqb (keyRingType (store w)) "mnemonic").
  - unfold bind, await_sendMessage in Hrun. simpl in Hrun.
    destruct (sendMessage _ BACKGROUND_PORT (candidatesMsg chainId) (env w))
      as [[e|seletables] env1].
    + injection Hrun as _ <-. simpl. repeat split.
      intros other Hother. apply Map_get_alter_other. exact Hother.
    + destruct seletables as [|only [|second rest]];
        [|exfalso; exact (Hnot only eq_refl)|];
        unfold refresh_resume in Hrun; flows; injection Hrun as _ <-; simpl;
        repeat split; intros other Hother;
        rewrite !Map_get_alter_other by exact Hother; reflexivity.
  - injection Hrun as _ <-. simpl. repeat split.
    intros other Hother. apply Map_get_alter_other. exact Hother.
Qed.

(** ** The flows in flight *)

Lemma Map_get_In {V : Type} (m : list (string * V)) (key : string) (v : V) :
  Map_get m key = Some v -> In key (map fst m).
Proof.
  induction m as [|[k v0] m IH]; simpl; [discriminate|].
  destruct (String.eqb k key) eqn:E.
  - apply String.eqb_eq in E. auto.
  - auto.
Qed.

Lemma preserves_ret {A : Type} (P : World Env -> Prop) (a : A) :
  preserves P (ret a).
Proof. intros w H. exact H. Qed.

Lemma preserves_bind {A B : Type} (P : World Env -> Prop)
  (m : flow (World Env) A) (k : A -> flow (World Env) B) :
  preserves P m -> (forall a, preserves P (k a)) -> preserves P (bind m k).
Proof.
  intros Hm Hk w Hw. unfold bind. specialize (Hm w Hw).
  destruct (m w) as [[e|a] w1]; simpl in *; [exact Hm|].
  apply Hk. exact Hm.
Qed.

Lemma in_flight_assign (f : KeyRingStore -> KeyRingStore) :
  (forall this, map fst (selectablesMap (f this)) = map fst (selectablesMap this)) ->
  preserves in_flight_registered (assign (Env := Env) f).
Proof.
  intros H w Hw chainId reply Hin. unfold registry. simpl. rewrite H.
  exact (Hw chainId reply Hin).
Qed.

Lemma in_flight_assign_self (chainId : string)
  (f : KeyRingSelectablesStore -> KeyRingSelectablesStore) :
  preserves in_flight_registered (assign_self (Env := Env) chainId f).
Proof. apply in_flight_assign. intros this. simpl. apply Map_alter_keys. Qed.

Lemma in_flight_await_sendMessage {A : Type} (msg : Msg A) :
  preserves in_flight_registered (await_sendMessage msg).
Proof.
  intros w Hw. unfold await_sendMessage.
  destruct (sendMessage A BACKGROUND_PORT msg (env w)). exact Hw.
Qed.

Lemma in_flight_await_approve (type id0 : string) (result : Payload) :
  preserves in_flight_registered (await_approve type id0 result).
Proof.
  intros w Hw. unfold await_approve.
  destruct (approve type id0 result (env w)). exact Hw.
Qed.

Lemma in_flight_dispatchEvent (name : string) :
  preserves in_flight_registered (dispatchEvent (Env := Env) name).
Proof. intros w Hw. exact Hw. Qed.

Lemma in_flight_call_refresh (chainId : string) (w : World Env) :
  in_flight_registered w -> in_flight_registered (call_refresh chainId w).
Proof.
  intros Hw. unfold call_refresh.
  destruct (Map_get (selectablesMap (store w)) chainId) as [self|] eqn:Hself.
  - rewrite (refresh_enter_spec _ _ _ Hself).
    assert (Hreg : In chainId (registry w)) by exact (Map_get_In _ _ _ Hself).
    destruct (String.eqb (keyRingType (store w)) "mnemonic").
    + unfold post. simpl.
      destruct (sendMessage _ BACKGROUND_PORT (candidatesMsg chainId) (env w))
        as [reply env1].
      intros c r Hin. unfold registry. simpl in *. rewrite Map_alter_keys.
      apply in_app_or in Hin. destruct Hin as [Hin|[Heq|[]]].
      * exact (Hw c r Hin).
      * injection Heq as <- _. exact Hreg.
    + intros c r Hin. unfold registry. simpl in *. rewrite Map_alter_keys.
      exact (Hw c r Hin).
  - unfold refresh_enter. rewrite Hself. exact Hw.
Qed.

Lemma in_flight_forEach_refresh : preserves in_flight_registered forEach_refresh.
Proof.
  intros w. unfold forEach_refresh. simpl.
  generalize (map fst (selectablesMap (store w))). intros l. revert w.
  induction l as [|c l IH]; intros w Hw; simpl; [exact Hw|].
  apply IH. apply in_flight_call_refresh. exact Hw.
Qed.

Create HintDb in_flight.

#[local] Hint Resolve preserves_ret in_flight_assign_self
  in_flight_await_sendMessage in_flight_await_approve in_flight_dispatchEvent
  in_flight_forEach_refresh : in_flight.

Ltac in_flight :=
  repeat first
    [ apply preserves_bind; [|intros ?]
    | apply in_flight_assign; intros ?; reflexivity
    | solve [auto with in_flight] ].

Lemma in_flight_approve_each (datas : list InteractionWaitingData) :
  preserves in_flight_registered (approve_each datas).
Proof. induction datas as [|d datas IH]; simpl; in_flight. Qed.

Lemma in_flight_setKeyStoreCoinType (chainId : string) (coinType : Z) :
  preserves in_flight_registered (setKeyStoreCoinType chainId coinType).
Proof. unfold setKeyStoreCoinType. in_flight. Qed.

#[local] Hint Resolve in_flight_approve_each in_flight_setKeyStoreCoinType
  : in_flight.

Lemma in_flight_refresh_resume (chainId : string)
  (seletables : list Selectable) :
  preserves in_flight_registered (refresh_resume chainId seletables).
Proof.
  unfold refresh_resume.
  destruct seletables as [|only [|second rest]]; in_flight.
Qed.

Lemma in_flight_restore_resume (result : RestoreResult) :
  preserves in_flight_registered (restore_resume (Env := Env) result).
Proof. unfold restore_resume. in_flight. Qed.

Lemma in_flight_run (c : Command) : preserves in_flight_registered (run c).
Proof.
  destruct c; simpl;
    unfold createMnemonicKey, createPrivateKey, createLedgerKey,
      addMnemonicKey, addPrivateKey, addLedgerKey, changeKeyRing, lock,
      unlock, showKeyRing, deleteKeyRing;
    in_flight.
  intros w. apply in_flight_approve_each.
Qed.

Lemma in_flight_refresh (chainId : string) :
  preserves in_flight_registered (refresh chainId).
Proof.
  intros w Hw. unfold refresh.
  assert (H1 : in_flight_registered (fst (refresh_enter chainId w))).
  { intros c r Hin. rewrite refresh_enter_registry.
    rewrite refresh_enter_suspended in Hin. exact (Hw c r Hin). }
  destruct (refresh_enter chainId w) as [w1 [msg|]]; simpl in H1;
    [|exact H1].
  apply preserves_bind;
    [apply in_flight_await_sendMessage|apply in_flight_refresh_resume|exact H1].
Qed.

Lemma In_removed {A : Type} (n : nat) (l : list A) (x : A) :
  In x (firstn n l ++ skipn (S n) l) -> In x l.
Proof.
  intros H. apply in_app_or in H. destruct H as [H|H].
  - rewrite <- (firstn_skipn n l). apply in_or_app. left. exact H.
  - rewrite <- (firstn_skipn (S n) l). apply in_or_app. right. exact H.
Qed.

Lemma in_flight_settle (n : nat) : preserves in_flight_registered (settle n).
Proof.
  intros w Hw. unfold settle.
  destruct (nth_error (suspended w) n) as [s|]; [|exact Hw].
  assert (H1 : in_flight_registered
                 {| store := store w; env := env w;
                    suspended := firstn n (suspended w)
                                 ++ skipn (S n) (suspended w);
                    events := events w |}).
  { intros c r Hin. apply (Hw c r). exact (In_removed _ _ _ Hin). }
  destruct s as [[e|result]|chainId [e|l]]; try exact H1.
  exact (in_flight_refresh_resume chainId l _ H1).
Qed.

(** X12: in every world the system can be in, each refresh in flight
    belongs to a chain that has a resolver in the map, so the reply that
    resumes it always finds the resolver it writes to. *)
Theorem reachable_in_flight_registered (w : World Env) :
  reachable w -> in_flight_registered w.
Proof.
  induction 1 as [env0|s w Hw IH].
  - unfold new_KeyRingStore, post. cbn [env].
    destruct (sendMessage _ BACKGROUND_PORT RestoreKeyRingMsg env0).
    intros c r [Hin|[]]. discriminate Hin.
  - destruct s as [c|chainId|chainId|n]; unfold step.
    + exact (in_flight_run c w IH).
    + unfold getKeyStoreSelectables, Map_has.
      destruct (Map_get (selectablesMap (store w)) chainId) eqn:Hget;
        simpl; [exact IH|].
      unfold new_KeyRingSelectablesStore. rewrite refresh_begin_entered.
      destruct (String.eqb (keyRingType (store w)) "mnemonic").
      * unfold post.
        destruct (sendMessage _ BACKGROUND_PORT (candidatesMsg chainId)
                    (env w)) as [reply env1].
        intros c r Hin. unfold registry. simpl in *.
        rewrite (Map_set_new _ _ _ Hget). apply in_or_app.
        apply in_app_or in Hin. destruct Hin as [Hin|[Heq|[]]].
        -- left. exact (IH c r Hin).
        -- injection Heq as <- _. right. left. reflexivity.
      * intros c r Hin. unfold registry. simpl in *.
        rewrite (Map_set_new _ _ _ Hget). apply in_or_app. left.
        exact (IH c r Hin).
    + exact (in_flight_refresh chainId w IH).
    + exact (in_flight_settle n w IH).
Qed.

End Properties.

(** * Concrete runs *)

Lemma rejected_command_store_witness :
  sendMessage _ BACKGROUND_PORT (projT2 (first_message create_mnemonic))
    (env create_denied) = (inl "denied", script []) /\
  run create_mnemonic create_denied =
    (inl "denied",
     {| store := empty_store; env := script []; suspended := [];
        events := [Sent "background"
                     (projT2 (first_message create_mnemonic))] |}) /\
  second_call (DeleteKeyRing 0 "pw") = Some (existT _ _ GetKeyRingTypeMsg) /\
  fst (run (DeleteKeyRing 0 "pw") delete_then_denied) = inl "denied" /\
  store (snd (run (DeleteKeyRing 0 "pw") delete_then_denied)) =
    {| status := LOCKED; keyRingType := "mnemonic";
       multiKeyStoreInfo :=
         [ {| index := 0; kind := "ledger"; meta := [("name", "nano")];
              selected := true |} ];
       selectablesMap := selectablesMap mnemonic_store |}.
Proof.
  assert (H1 : sendMessage _ BACKGROUND_PORT
                 (projT2 (first_message create_mnemonic)) (env create_denied)
               = (inl "denied", script [])) by reflexivity.
  split; [exact H1|].
  split;
    [exact (proj1 (rejected_command_store create_mnemonic create_denied)
              "denied" (script []) H1)|].
  split; [reflexivity|].
  assert (H2 : sendMessage _ BACKGROUND_PORT
                 (projT2 (first_message (DeleteKeyRing 0 "pw")))
                 (env delete_then_denied)
               = (inr {| delete_status := LOCKED;
                         delete_multiKeyStoreInfo :=
                           [ {| index := 0; kind := "ledger";
                                meta := [("name", "nano")];
                                selected := true |} ] |},
                  script [Reject "denied"])) by reflexivity.
  assert (H3 : sendMessage _ BACKGROUND_PORT GetKeyRingTypeMsg
                 (script [Reject "denied"])
               = (inl "denied", script [])) by reflexivity.
  rewrite (proj1 (proj2 (rejected_command_store (DeleteKeyRing 0 "pw")
                           delete_then_denied))
             _ _ (existT _ _ GetKeyRingTypeMsg) "denied" _ H2 eq_refl H3).
  split; reflexivity.
Defined.

(** C1 fails as stated: [createMnemonicKey] whose second boundary call is
    rejected ends with the rejection and with the [status] of the first
    answer, not with the [status] from before the command. *)
Lemma createMnemonicKey_keeps_first_write :
  fst (run create_mnemonic create_then_denied) = inl "denied" /\
  status (store create_then_denied) = EMPTY /\
  status (store (snd (run create_mnemonic create_then_denied))) = UNLOCKED /\
  status (store (snd (run create_mnemonic create_then_denied)))
    <> status (store create_then_denied).
Proof. repeat split. discriminate. Qed.

Lemma refresh_rejected_witness :
  keyRingType (store query_denied) = "mnemonic" /\
  sendMessage _ BACKGROUND_PORT (candidatesMsg "cosmoshub-4")
    (env query_denied) = (inl "denied", script []) /\
  exists w',
    refresh "cosmoshub-4" query_denied = (inl "denied", w') /\
    Map_get (selectablesMap (store w')) "cosmoshub-4" =
      Some {| isInitializing := true; _isKeyStoreCoinTypeSet := true;
              _selectables := [] |}.
Proof.
  assert (H1 : sendMessage _ BACKGROUND_PORT (candidatesMsg "cosmoshub-4")
                 (env query_denied) = (inl "denied", script []))
    by reflexivity.
  split; [reflexivity|]. split; [exact H1|].
  destruct (refresh_rejected "cosmoshub-4" query_denied "denied"
              {| isInitializing := false; _isKeyStoreCoinTypeSet := true;
                 _selectables := [] |}
              eq_refl eq_refl (or_introl (ex_intro _ (script []) H1)))
    as (w' & Hrun & _ & Hself).
  exists w'. split; [exact Hrun|exact Hself].
Defined.

(** C2 fails as stated: after a refresh whose candidate query is rejected
    the resolver is still initializing. *)
Lemma refresh_rejected_stays_initializing :
  fst (refresh "cosmoshub-4" query_denied) = inl "denied" /\
  option_map isInitializing
    (Map_get (selectablesMap (store query_denied)) "cosmoshub-4")
    = Some false /\
  option_map isInitializing
    (Map_get (selectablesMap (store (snd (refresh "cosmoshub-4" query_denied))))
       "cosmoshub-4")
    = Some true.
Proof. repeat split. Qed.

Lemma resolved_after_command_witness :
  refreshes_resolvers (ChangeKeyRing 1) = true /\
  run (ChangeKeyRing 1) change_to_ledger
    = (inr tt, snd (run (ChangeKeyRing 1) change_to_ledger)) /\
  resolved_unless_mnemonic (store (snd (run (ChangeKeyRing 1) change_to_ledger))).
Proof.
  split; [reflexivity|]. split; [reflexivity|].
  exact (resolved_after_command (ChangeKeyRing 1) change_to_ledger _ _
           eq_refl (or_introl (conj eq_refl eq_refl))).
Defined.

(** C3 fails as stated: the world reached by creating a ledger key next to
    a resolver with two candidates has a key ring type other than
    "mnemonic" and a resolver that is not resolved. *)
Lemma createLedgerKey_leaves_candidates :
  reachable ledger_after_mnemonic /\
  keyRingType (store ledger_after_mnemonic) = "ledger" /\
  Map_get (selectablesMap (store ledger_after_mnemonic)) "cosmoshub-4" =
    Some {| isInitializing := false; _isKeyStoreCoinTypeSet := false;
            _selectables := [cosmos118; cosmos60] |} /\
  ~ resolved_unless_mnemonic (store ledger_after_mnemonic).
Proof.
  split; [|split; [reflexivity|split; [reflexivity|]]].
  - unfold ledger_after_mnemonic. repeat apply reachable_step.
    apply reachable_new.
  - intros H. assert (Hk : keyRingType (store ledger_after_mnemonic)
                           <> "mnemonic") by (vm_compute; discriminate).
    specialize (H Hk). vm_compute in H. inversion H as [|x l [Hr _] _].
    discriminate Hr.
Qed.

Lemma createKey_frame_witness :
  creates_key create_ledger = true /\
  run create_ledger create_answered
    = (inr tt, snd (run create_ledger create_answered)) /\
  store (snd (run create_ledger create_answered)) =
    set_keyRingType "ledger" (set_status UNLOCKED empty_store) /\
  suspended (snd (run create_ledger create_answered)) = [].
Proof.
  split; [reflexivity|]. split; [reflexivity|].
  exact (createKey_frame create_ledger create_answered _ eq_refl eq_refl).
Defined.

(** C4 fails as stated: a successful [createLedgerKey] changes
    [keyRingType] as well as [status]. *)
Lemma createLedgerKey_changes_keyRingType :
  fst (run create_ledger create_answered) = inr tt /\
  keyRingType (store create_answered) = "none" /\
  keyRingType (store (snd (run create_ledger create_answered))) = "ledger" /\
  keyRingType (store (snd (run create_ledger create_answered)))
    <> keyRingType (store create_answered).
Proof. repeat split. discriminate. Qed.




Lemma refresh_not_mnemonic_witness :
  keyRingType (store ledger_with_candidates) <> "mnemonic" /\
  fst (sendMessage _ BACKGROUND_PORT (candidatesMsg "osmosis-1")
         (env ledger_with_candidates)) = inr [cosmos118; cosmos60] /\
  exists w',
    refresh "osmosis-1" ledger_with_candidates = (inr tt, w') /\
    Map_get (selectablesMap (store w')) "osmosis-1" =
      Some {| isInitializing := false; _isKeyStoreCoinTypeSet := true;
              _selectables := [] |} /\
    events w' = [] /\
    env w' = env ledger_with_candidates /\
    suspended w' = [].
Proof.
  assert (Hk : keyRingType (store ledger_with_candidates) <> "mnemonic")
    by discriminate.
  split; [exact Hk|]. split; [reflexivity|].
  exact (refresh_not_mnemonic "osmosis-1" ledger_with_candidates _ Hk eq_refl).
Defined.

Lemma unlock_rejected_witness :
  sendMessage _ BACKGROUND_PORT (UnlockKeyRingMsg "pw") (env unlock_denied)
    = (inl "wrong password", three_waiting [] []) /\
  exists w',
    unlock "pw" unlock_denied = (inl "wrong password", w') /\
    store w' = ledger_store /\
    events w' = [Sent "background" (UnlockKeyRingMsg "pw")].
Proof.
  split; [reflexivity|].
  exact (unlock_rejected "pw" unlock_denied "wrong password" _ eq_refl).
Defined.

Lemma write_back_precedes_refresh_witness :
  sendMessage _ BACKGROUND_PORT (ChangeKeyRingMsg 0) (env change_to_mnemonic)
    = (inr mnemonic_info,
       script [ReplyString "mnemonic"; ReplySelectables [];
               ReplySelectables []]) /\
  keyRingType (store change_to_mnemonic) = "ledger" /\
  exists w',
    changeKeyRing 0 change_to_mnemonic = (inr tt, w') /\
    multiKeyStoreInfo (store w') = mnemonic_info /\
    keyRingType (store w') = "mnemonic" /\
    map (fun entry => isInitializing (snd entry)) (selectablesMap (store w'))
      = [true; true].
Proof.
  assert (H1 : sendMessage _ BACKGROUND_PORT (ChangeKeyRingMsg 0)
                 (env change_to_mnemonic)
               = (inr mnemonic_info,
                  script [ReplyString "mnemonic"; ReplySelectables [];
                          ReplySelectables []])) by reflexivity.
  assert (H2 : sendMessage _ BACKGROUND_PORT GetKeyRingTypeMsg
                 (script [ReplyString "mnemonic"; ReplySelectables [];
                          ReplySelectables []])
               = (inr "mnemonic",
                  script [ReplySelectables []; ReplySelectables []]))
    by reflexivity.
  split; [exact H1|]. split; [reflexivity|].
  destruct (proj1 (write_back_precedes_refresh change_to_mnemonic)
              0%Z _ _ _ _ H1 H2)
    as (w1 & w' & _ & _ & _ & Hrun & Hi & Hk & Hmap).
  exists w'. split; [exact Hrun|]. split; [exact Hi|]. split; [exact Hk|].
  rewrite Hmap. reflexivity.
Defined.

Lemma unlock_approval_rejected_witness :
  sendMessage _ BACKGROUND_PORT (UnlockKeyRingMsg "pw")
    (env unlock_approval_denied)
    = (inr {| result_status := UNLOCKED |},
       three_waiting [] [inr tt; inl "closed"]) /\
  getDatas EnableKeyRingMsg_type (three_waiting [] [inr tt; inl "closed"])
    = [ {| id := "a" |} ] ++ {| id := "b" |} :: [ {| id := "c" |} ] /\
  status (store unlock_approval_denied) = LOCKED /\
  unlock "pw" unlock_approval_denied =
    (inl "closed",
     {| store := set_status UNLOCKED ledger_store;
        env := {| replies := []; waiting := [ {| id := "c" |} ];
                  approvals := [] |};
        suspended := [];
        events := [Sent "background" (UnlockKeyRingMsg "pw");
                   Approved "enable-keyring" "a" [];
                   Approved "enable-keyring" "b" []] |}).
Proof.
  assert (H1 : sendMessage _ BACKGROUND_PORT (UnlockKeyRingMsg "pw")
                 (env unlock_approval_denied)
               = (inr {| result_status := UNLOCKED |},
                  three_waiting [] [inr tt; inl "closed"])) by reflexivity.
  assert (H2 : approved [ {| id := "a" |} ]
                 (three_waiting [] [inr tt; inl "closed"])
                 {| replies := [];
                    waiting := [ {| id := "b" |}; {| id := "c" |} ];
                    approvals := [inl "closed"] |}).
  { eapply approved_cons; [reflexivity|apply approved_nil]. }
  assert (H3 : approve EnableKeyRingMsg_type "b" []
                 {| replies := [];
                    waiting := [ {| id := "b" |}; {| id := "c" |} ];
                    approvals := [inl "closed"] |}
               = (inl "closed",
                  {| replies := []; waiting := [ {| id := "c" |} ];
                     approvals := [] |})) by reflexivity.
  split; [exact H1|]. split; [reflexivity|]. split; [reflexivity|].
  exact (unlock_approval_rejected "pw" unlock_approval_denied _ _
           [ {| id := "a" |} ] {| id := "b" |} [ {| id := "c" |} ] _ _ _
           H1 eq_refl H2 H3).
Defined.

(** ** Further concrete runs *)

Lemma getKeyStoreSelectables_new_witness :
  Map_get (selectablesMap (store two_candidates)) "osmosis-1" = None /\
  exists w',
    getKeyStoreSelectables "osmosis-1" two_candidates =
      (Some {| isInitializing := true; _isKeyStoreCoinTypeSet := false;
               _selectables := [] |}, w') /\
    map fst (selectablesMap (store w')) = ["cosmoshub-4"; "osmosis-1"] /\
    events w' = [Sent "background" (candidatesMsg "osmosis-1")] /\
    length (suspended w') = 1%nat.
Proof.
  split; [reflexivity|].
  destruct (getKeyStoreSelectables_new "osmosis-1" two_candidates eq_refl)
    as (w' & Hrun & Hmap & _ & Hevents & Hlen & _).
  exists w'. split; [exact Hrun|]. split; [rewrite Hmap; reflexivity|].
  split; [exact Hevents|exact Hlen].
Defined.

Lemma late_candidates_applied_witness :
  keyRingType (store changed_before_reply) = "ledger" /\
  nth_error (suspended changed_before_reply) 0
    = Some (AwaitSelectables "cosmoshub-4" (inr [cosmos118; cosmos60])) /\
  Map_get (selectablesMap (store changed_before_reply)) "cosmoshub-4" =
    Some {| isInitializing := false; _isKeyStoreCoinTypeSet := true;
            _selectables := [] |} /\
  exists w',
    settle 0 changed_before_reply = (inr tt, w') /\
    Map_get (selectablesMap (store w')) "cosmoshub-4" =
      Some {| isInitializing := false; _isKeyStoreCoinTypeSet := false;
              _selectables := [cosmos118; cosmos60] |} /\
    keyRingType (store w') = "ledger".
Proof.
  split; [reflexivity|]. split; [reflexivity|]. split; [reflexivity|].
  assert (Hlen : length [cosmos118; cosmos60] <> 1%nat) by discriminate.
  destruct (late_candidates_applied 0 changed_before_reply "cosmoshub-4"
              [cosmos118; cosmos60] _ eq_refl eq_refl Hlen)
    as (w' & Hrun & Hself & (_ & Hk & _) & _).
  exists w'. split; [exact Hrun|]. split; [exact Hself|].
  rewrite Hk. reflexivity.
Defined.

Lemma command_frame_witness :
  run Lock lock_answered = (inr tt, snd (run Lock lock_answered)) /\
  status (store lock_answered) = UNLOCKED /\
  status (store (snd (run Lock lock_answered))) = LOCKED /\
  multiKeyStoreInfo (store (snd (run Lock lock_answered))) = mnemonic_info /\
  keyRingType (store (snd (run Lock lock_answered))) = "mnemonic" /\
  no_refresh lock_answered (snd (run Lock lock_answered)).
Proof.
  assert (Hrun : run Lock lock_answered
                 = (inr tt, snd (run Lock lock_answered))) by reflexivity.
  split; [exact Hrun|]. split; [reflexivity|]. split; [reflexivity|].
  destruct (command_frame Lock lock_answered _ _ Hrun) as (_ & Hi & Hk & Hno).
  split; [exact (Hi eq_refl)|]. split; [exact (Hk eq_refl)|exact (Hno eq_refl)].
Defined.

Lemma fulfilled_command_events_witness :
  is_unlock (ChangeKeyRing 0) = false /\
  run (ChangeKeyRing 0) change_to_mnemonic
    = (inr tt, snd (run (ChangeKeyRing 0) change_to_mnemonic)) /\
  events (snd (run (ChangeKeyRing 0) change_to_mnemonic)) =
    [Sent "background" (ChangeKeyRingMsg 0);
     Sent "background" GetKeyRingTypeMsg;
     Dispatched "keplr_keystorechange";
     Sent "background" (candidatesMsg "cosmoshub-4");
     Sent "background" (candidatesMsg "osmosis-1")].
Proof.
  assert (Hrun : run (ChangeKeyRing 0) change_to_mnemonic
                 = (inr tt, snd (run (ChangeKeyRing 0) change_to_mnemonic)))
    by reflexivity.
  split; [reflexivity|]. split; [exact Hrun|].
  rewrite (fulfilled_command_events (ChangeKeyRing 0) change_to_mnemonic _
             eq_refl Hrun).
  reflexivity.
Defined.

Lemma needSelectCoinType_after_refresh_witness :
  refresh "cosmoshub-4" two_candidates
    = (inr tt, snd (refresh "cosmoshub-4" two_candidates)) /\
  Map_get
    (selectablesMap (store (snd (refresh "cosmoshub-4" two_candidates))))
    "cosmoshub-4" =
    Some {| isInitializing := false; _isKeyStoreCoinTypeSet := false;
            _selectables := [cosmos118; cosmos60] |} /\
  needSelectCoinType "cosmoshub-4"
    {| isInitializing := false; _isKeyStoreCoinTypeSet := false;
       _selectables := [cosmos118; cosmos60] |} = true /\
  keyRingType (store two_candidates) = "mnemonic" /\
  fst (sendMessage _ BACKGROUND_PORT (candidatesMsg "cosmoshub-4")
         (env two_candidates)) = inr [cosmos118; cosmos60].
Proof.
  assert (Hrun : refresh "cosmoshub-4" two_candidates
                 = (inr tt, snd (refresh "cosmoshub-4" two_candidates)))
    by reflexivity.
  split; [exact Hrun|]. split; [reflexivity|]. split; [reflexivity|].
  destruct (needSelectCoinType_after_refresh "cosmoshub-4" two_candidates _ _
              _ _ eq_refl Hrun eq_refl eq_refl) as (_ & Hk & _ & Hsent).
  split; [exact Hk|exact Hsent].
Defined.

Lemma refresh_frame_witness :
  keyRingType (store two_chains) = "mnemonic" /\
  refresh "cosmoshub-4" two_chains
    = (inr tt, snd (refresh "cosmoshub-4" two_chains)) /\
  (forall only,
     fst (sendMessage _ BACKGROUND_PORT (candidatesMsg "cosmoshub-4")
            (env two_chains)) <> inr [only]) /\
  Map_get (selectablesMap (store (snd (refresh "cosmoshub-4" two_chains))))
    "cosmoshub-4" =
    Some {| isInitializing := false; _isKeyStoreCoinTypeSet := false;
            _selectables := [cosmos118; cosmos60] |} /\
  Map_get (selectablesMap (store (snd (refresh "cosmoshub-4" two_chains))))
    "osmosis-1" =
    Some {| isInitializing := false; _isKeyStoreCoinTypeSet := false;
            _selectables := [cosmos118; cosmos60] |} /\
  Map_get (selectablesMap (store two_chains)) "osmosis-1" =
    Some {| isInitializing := false; _isKeyStoreCoinTypeSet := false;
            _selectables := [cosmos118; cosmos60] |}.
Proof.
  assert (Hrun : refresh "cosmoshub-4" two_chains
                 = (inr tt, snd (refresh "cosmoshub-4" two_chains)))
    by reflexivity.
  assert (Hnot : forall only,
            fst (sendMessage _ BACKGROUND_PORT (candidatesMsg "cosmoshub-4")
                   (env two_chains)) <> inr [only])
    by (intros only; discriminate).
  assert (Hother : "osmosis-1" <> "cosmoshub-4") by discriminate.
  split; [reflexivity|]. split; [exact Hrun|]. split; [exact Hnot|].
  split; [reflexivity|].
  rewrite (proj2 (refresh_frame "cosmoshub-4" two_chains _ _ Hrun Hnot)
             "osmosis-1" Hother).
  split; reflexivity.
Defined.

Lemma reachable_in_flight_registered_witness :
  reachable changed_before_reply /\
  suspended changed_before_reply
    = [AwaitSelectables "cosmoshub-4" (inr [cosmos118; cosmos60])] /\
  in_flight_registered changed_before_reply.
Proof.
  assert (Hreach : reachable changed_before_reply).
  { unfold changed_before_reply. repeat apply reachable_step.
    apply reachable_new. }
  split; [exact Hreach|]. split; [reflexivity|].
  exact (reachable_in_flight_registered changed_before_reply Hreach).
Defined.
